(** * SwiftDrop server: the parcel service and its request handlers

    A shallow embedding of [src/services/parcel.service.ts], of the
    handlers of [src/controllers/parcels.controller.ts] and of the origin
    check and preflight middleware of [src/app.ts].

    The MongoDB collection behind the Mongoose model [Parcel] is an
    explicit piece of state (a list of documents in insertion order);
    every [async] function of the service is a computation over that
    state which either returns a value or throws.

    What the libraries decide is a variable of the section that uses it:
    which patterns [RegExp] compiles and what they match, how [Date] reads
    a string, how the server orders a result.  Which strings
    [Types.ObjectId] accepts and which identifier it reads from each, and
    the users collection, which [populate] reads and the parcel service
    never writes, make up the [Setting] the service runs in. *)

From Stdlib Require Import String Ascii List ZArith Bool Lia Permutation Sorted.
From Stdlib Require QArith_base DecimalString.
Import ListNotations.
Local Open Scope string_scope.
Local Open Scope list_scope.

(** ** Values *)

(** A [Date] is its number of milliseconds since the epoch. *)
Definition Date := Z.

(** A JavaScript [number] (only carried around, never computed with). *)
Definition number := QArith_base.Q.

(** [Types.ObjectId]: an identifier of twelve bytes, kept as the text
    [toHexString] prints for it.  The driver builds every identifier through
    [ObjectId_hex] below, so that two spellings of the same bytes (upper-case
    and lower-case digits) give one identifier, and two identifiers are
    equal when their bytes, hence their printed texts, are. *)
Record ObjectId : Type := MkObjectId { toHexString : string }.

Definition ObjectId_eqb (a b : ObjectId) : bool :=
  (toHexString a =? toHexString b)%string.

(** A user as [populate(path, "name email")] returns it. *)
Record UserView : Type := MkUserView {
  view_id : ObjectId;
  view_name : string;
  view_email : string
}.

(** What lies outside the parcel collection: how the driver reads a string as
    an identifier ([Types.ObjectId.isValid] on strings, and the text
    [toHexString] prints for [new Types.ObjectId(s)]), and the users
    collection, which the parcel service only reads ([None] when no user has
    the identifier). *)
Record Setting : Type := MkSetting {
  ObjectId_isValid : string -> bool;
  ObjectId_hex : string -> string;
  User_findById : ObjectId -> option UserView
}.

(** Truthiness of an optional string: [undefined] and [""] are falsy. *)
Definition truthy (o : option string) : option string :=
  match o with
  | Some s => if (s =? "")%string then None else Some s
  | None => None
  end.

(** [a || d] on an optional string. *)
Definition or_default (o : option string) (d : string) : string :=
  match truthy o with
  | Some s => s
  | None => d
  end.

(** ** Errors and the result of an awaited call *)

Inductive Exn : Type :=
| Error (message : string)     (* [throw new Error(message)] *)
| BSONError                    (* [new Types.ObjectId] on a malformed string *)
| CastError                    (* Mongoose could not cast a query value *)
| DuplicateKeyError            (* unique index violated on insert *)
| DocumentNotFoundError        (* [save] of a document that is not stored *)
| MongoServerError             (* the server refused the command *)
| SyntaxError.                 (* [new RegExp] on a malformed pattern *)

Inductive Res (A : Type) : Type :=
| Ok (a : A)
| Throw (e : Exn).
Arguments Ok {A} a.
Arguments Throw {A} e.

(** ** Data model *)

Record StatusLog : Type := MkStatusLog {
  log_status : string;
  log_timestamp : Date;
  log_note : option string;
  log_updatedBy : option ObjectId
}.

(** Modelled from the spec: the Mongoose model [models/Parcel.model] is not
    among the sources.  The document has the fields of the spec's data model
    (section 3), with [status] an unconstrained string as the service assigns
    it, plus the creation time the queries sort and filter on. *)
Record Parcel : Type := MkParcel {
  _id : ObjectId;
  trackingId : string;
  senderId : ObjectId;
  receiverId : ObjectId;
  origin : string;
  destination : string;
  weight : option number;
  price : option number;
  status : string;
  statusLogs : list StatusLog;
  createdAt : Date
}.

Definition set_status (p : Parcel) (s : string) : Parcel :=
  MkParcel (_id p) (trackingId p) (senderId p) (receiverId p) (origin p)
           (destination p) (weight p) (price p) s (statusLogs p) (createdAt p).

Definition push_statusLog (p : Parcel) (l : StatusLog) : Parcel :=
  MkParcel (_id p) (trackingId p) (senderId p) (receiverId p) (origin p)
           (destination p) (weight p) (price p) (status p)
           (statusLogs p ++ [l]) (createdAt p).

Definition set_updatedBy (l : StatusLog) (u : ObjectId) : StatusLog :=
  MkStatusLog (log_status l) (log_timestamp l) (log_note l) (Some u).

(** A parcel document as a query with [populate] returns it: the stored
    fields, and at the paths [senderId] and [receiverId] the users found in
    place of the references ([None] is [null]: no such user).  Saving such a
    document writes the stored fields; the two references are not touched. *)
Record Populated : Type := MkPopulated {
  doc : Parcel;
  sender_user : option UserView;
  receiver_user : option UserView
}.

(** [p.status = s] and [p.statusLogs.push(l)] on a populated document. *)
Definition doc_set_status (d : Populated) (s : string) : Populated :=
  MkPopulated (set_status (doc d) s) (sender_user d) (receiver_user d).

Definition doc_push_statusLog (d : Populated) (l : StatusLog) : Populated :=
  MkPopulated (push_statusLog (doc d) l) (sender_user d) (receiver_user d).

Record CreateParcelDTO : Type := MkDTO {
  dto_senderId : string;
  dto_receiverId : string;
  dto_origin : string;
  dto_destination : string;
  dto_weight : option number;
  dto_price : option number;
  dto_note : option string
}.

(** What the runtime hands to one call: the reading of the clock
    ([new Date()]), the code [generateTrackingId()] returns and the [_id]
    the driver gives to an inserted document. *)
Record Env : Type := MkEnv {
  env_now : Date;
  env_trackingId : string;
  env_objectId : ObjectId
}.

(** ** The collection and the [Async] monad *)

Definition Collection := list Parcel.

Definition Async (A : Type) : Type := Collection -> Res A * Collection.

Definition ret {A} (a : A) : Async A := fun c => (Ok a, c).

Definition throw {A} (e : Exn) : Async A := fun c => (Throw e, c).

Definition bind {A B} (m : Async A) (k : A -> Async B) : Async B :=
  fun c =>
    match m c with
    | (Ok a, c') => k a c'
    | (Throw e, c') => (Throw e, c')
    end.

Definition lift {A} (r : Res A) : Async A := fun c => (r, c).

Notation "x <- m ;; k" := (bind m (fun x => k))
  (at level 61, m at next level, right associativity).
Notation "m ;;; k" := (bind m (fun _ => k))
  (at level 61, right associativity).

(** [Parcel.findOne({ trackingId })]. *)
Definition Parcel_findOne_trackingId (t : string) : Async (option Parcel) :=
  fun c => (Ok (find (fun p => (trackingId p =? t)%string) c), c).

(** [Parcel.findById(id)]. *)
Definition Parcel_findById (id : ObjectId) : Async (option Parcel) :=
  fun c => (Ok (find (fun p => ObjectId_eqb (_id p) id) c), c).

(** The stored documents with the first one whose [_id] is that of [p]
    replaced by [p]; [None] when there is none. *)
Fixpoint replace_doc (p : Parcel) (c : Collection) : option Collection :=
  match c with
  | [] => None
  | d :: c' =>
      if ObjectId_eqb (_id d) (_id p) then Some (p :: c')
      else option_map (cons d) (replace_doc p c')
  end.

(** Modelled from the spec: [p.save()] of the missing model, the
    repository's [save]: it persists the full current state of the parcel
    (section 4.2), whatever its status. *)
Definition save (p : Parcel) : Async unit :=
  fun c =>
    match replace_doc p c with
    | Some c' => (Ok tt, c')
    | None => (Throw DocumentNotFoundError, c)
    end.

(** Modelled from the spec: [Parcel.create] of the missing model, the
    repository's [create]: it stores the new aggregate with its initial log
    entry and fails when the tracking identifier collides (section 4.2).  The
    stored document gets its [_id] and its creation time. *)
Definition Parcel_create (env : Env) (t : string) (s r : ObjectId)
    (o d : string) (w pr : option number) (st : string)
    (logs : list StatusLog) : Async Parcel :=
  fun c =>
    if existsb (fun p => (trackingId p =? t)%string) c
    then (Throw DuplicateKeyError, c)
    else
      let p := MkParcel (env_objectId env) t s r o d w pr st logs (env_now env) in
      (Ok p, c ++ [p]).

(** ** The service *)

Section Service.

Variable sys : Setting.

(** The identifier the driver and Mongoose's cast read from a valid string:
    the one whose [toHexString] is [ObjectId_hex] of the string. *)
Definition ObjectId_of (s : string) : ObjectId :=
  MkObjectId (ObjectId_hex sys s).

(** [new Types.ObjectId(s)]: throws on a string that is not valid. *)
Definition ObjectId_new (s : string) : Res ObjectId :=
  if ObjectId_isValid sys s then Ok (ObjectId_of s) else Throw BSONError.

(** [.populate("senderId", "name email").populate("receiverId", "name email")]
    on a found document. *)
Definition populate (p : Parcel) : Populated :=
  MkPopulated p (User_findById sys (senderId p)) (User_findById sys (receiverId p)).

Definition createParcel (env : Env) (dto : CreateParcelDTO) : Async Parcel :=
  let trackingId := env_trackingId env in
  senderObjectId <- lift (ObjectId_new (dto_senderId dto)) ;;
  receiverObjectId <- lift (ObjectId_new (dto_receiverId dto)) ;;
  let statusLog :=
    MkStatusLog "Created" (env_now env)
                (Some (or_default (dto_note dto) "Parcel created"))
                (Some senderObjectId) in
  Parcel_create env trackingId senderObjectId receiverObjectId
                (dto_origin dto) (dto_destination dto)
                (dto_weight dto) (dto_price dto)
                "Created" [statusLog].

Definition getParcelByTrackingId (trackingId : string) : Async (option Populated) :=
  p <- Parcel_findOne_trackingId trackingId ;;
  ret (option_map populate p).

Definition getParcelById (id : string) : Async (option Populated) :=
  if negb (ObjectId_isValid sys id) then ret None
  else
    p <- Parcel_findById (ObjectId_of id) ;;
    ret (option_map populate p).

Definition updateParcelStatus (env : Env) (parcelId : string) (status : string)
    (updatedBy : option string) (note : option string) : Async (option Populated) :=
  p <- getParcelById parcelId ;;
  match p with
  | None => ret None
  | Some p =>
      let p := doc_set_status p status in
      let log := MkStatusLog status (env_now env) note None in
      log <- match truthy updatedBy with
             | Some u => o <- lift (ObjectId_new u) ;; ret (set_updatedBy log o)
             | None => ret log
             end ;;
      let p := doc_push_statusLog p log in
      save (doc p) ;;;
      ret (Some p)
  end.

Definition after_dispatch : list string := ["Dispatched"; "InTransit"; "Delivered"].

Definition includes (l : list string) (s : string) : bool :=
  existsb (fun x => (x =? s)%string) l.

Definition cancelParcel (env : Env) (parcelId : string) (userId : option string)
    : Async (option Populated) :=
  p <- getParcelById parcelId ;;
  match p with
  | None => ret None
  | Some p =>
      if includes after_dispatch (status (doc p))
      then throw (Error "Cannot cancel parcel after dispatch")
      else
        let p := doc_set_status p "Cancelled" in
        let log := MkStatusLog "Cancelled" (env_now env) (Some "Cancelled by user") None in
        log <- match truthy userId with
               | Some u => o <- lift (ObjectId_new u) ;; ret (set_updatedBy log o)
               | None => ret log
               end ;;
        let p := doc_push_statusLog p log in
        save (doc p) ;;;
        ret (Some p)
  end.

End Service.

(** ** Listing parcels *)

(** The filter bag [listParcels] receives: the keys [buildParcelsQuery]
    reads, each absent or a string. *)
Record Filters : Type := MkFilters {
  f_status : option string;
  f_senderId : option string;
  f_receiverId : option string;
  f_trackingId : option string;
  f_q : option string;
  f_fromDate : option string;
  f_toDate : option string
}.

Definition no_filters : Filters := MkFilters None None None None None None None.

(** A [RegExp] object built with the flag ["i"]. *)
Record RegExp : Type := MkRegExp { source : string }.

Inductive Field : Type := F_origin | F_destination | F_trackingId.

Definition field_of (f : Field) (p : Parcel) : string :=
  match f with
  | F_origin => origin p
  | F_destination => destination p
  | F_trackingId => trackingId p
  end.

(** A [Date] object; [None] is the invalid date. *)
Definition JsDate := option Date.

(** [q.createdAt]: the object holding [$gte] and [$lte]. *)
Record CreatedAtCond : Type := MkCreatedAt {
  c_gte : option JsDate;
  c_lte : option JsDate
}.

(** The query object [q] of [buildParcelsQuery]. *)
Record MongoQuery : Type := MkQuery {
  q_status : option string;
  q_senderId : option string;
  q_receiverId : option string;
  q_trackingId : option string;
  q_or : option (list (Field * RegExp));
  q_createdAt : option CreatedAtCond
}.

(** ASCII lower case and the case-insensitive substring test. *)
Definition lower (a : ascii) : ascii :=
  let n := nat_of_ascii a in
  if (65 <=? n)%nat && (n <=? 90)%nat then ascii_of_nat (n + 32) else a.

Fixpoint prefix_ci (t s : string) : bool :=
  match t, s with
  | EmptyString, _ => true
  | String a t', String b s' => Ascii.eqb (lower a) (lower b) && prefix_ci t' s'
  | String _ _, EmptyString => false
  end.

Fixpoint includes_ci (t s : string) : bool :=
  prefix_ci t s ||
  match s with
  | EmptyString => false
  | String _ s' => includes_ci t s'
  end.

(** Characters with a special meaning in a regular expression. *)
Definition metachars : list ascii :=
  list_ascii_of_string "\^$.|?*+()[]{}".

Definition is_meta (a : ascii) : bool :=
  existsb (Ascii.eqb a) metachars.

Fixpoint meta_free (t : string) : bool :=
  match t with
  | EmptyString => true
  | String a t' => negb (is_meta a) && meta_free t'
  end.

Definition opt_all {A} (f : A -> bool) (o : option A) : bool :=
  match o with
  | Some a => f a
  | None => true
  end.

Section Query.

Variable sys : Setting.

(** [new RegExp(src, "i")] succeeds (on a malformed pattern it throws). *)
Variable RegExp_compiles : string -> bool.

(** The pattern [src], ignoring case, matches somewhere in the string. *)
Variable regex_test : string -> string -> bool.

(** [new Date(s)] on a string. *)
Variable Date_parse : string -> JsDate.

(** [.sort(sort)]: the documents reordered as the sort argument says. *)
Variable sortDocs : string -> list Parcel -> list Parcel.

Definition RegExp_new (src : string) : Res RegExp :=
  if RegExp_compiles src then Ok (MkRegExp src) else Throw SyntaxError.

Definition buildParcelsQuery (filters : Filters) : Async MongoQuery :=
  let status := truthy (f_status filters) in
  let senderId := truthy (f_senderId filters) in
  let receiverId := truthy (f_receiverId filters) in
  let trackingId := truthy (f_trackingId filters) in
  or <- match truthy (f_q filters) with
        | Some t =>
            regex <- lift (RegExp_new t) ;;
            ret (Some [(F_origin, regex); (F_destination, regex); (F_trackingId, regex)])
        | None => ret None
        end ;;
  let createdAt :=
    match truthy (f_fromDate filters), truthy (f_toDate filters) with
    | None, None => None
    | from, to =>
        Some (MkCreatedAt (option_map Date_parse from) (option_map Date_parse to))
    end in
  ret (MkQuery status senderId receiverId trackingId or createdAt).

(** Mongoose casts the values of a query to the types of the schema before
    it runs: identifiers to [ObjectId], and it rejects an invalid date. *)
Definition cast_id (o : option string) : Res (option ObjectId) :=
  match o with
  | None => Ok None
  | Some s => if ObjectId_isValid sys s then Ok (Some (ObjectId_of sys s))
              else Throw CastError
  end.

Definition cast_date (o : option JsDate) : Res (option Date) :=
  match o with
  | None => Ok None
  | Some (Some d) => Ok (Some d)
  | Some None => Throw CastError
  end.

Record CastQuery : Type := MkCast {
  k_status : option string;
  k_senderId : option ObjectId;
  k_receiverId : option ObjectId;
  k_trackingId : option string;
  k_or : option (list (Field * RegExp));
  k_gte : option Date;
  k_lte : option Date
}.

Definition castQuery (q : MongoQuery) : Res CastQuery :=
  match cast_id (q_senderId q) with
  | Throw e => Throw e
  | Ok s =>
  match cast_id (q_receiverId q) with
  | Throw e => Throw e
  | Ok r =>
  match cast_date (match q_createdAt q with Some c => c_gte c | None => None end) with
  | Throw e => Throw e
  | Ok g =>
  match cast_date (match q_createdAt q with Some c => c_lte c | None => None end) with
  | Throw e => Throw e
  | Ok l => Ok (MkCast (q_status q) s r (q_trackingId q) (q_or q) g l)
  end end end end.

(** Whether a stored document satisfies a query. *)
Definition matches (k : CastQuery) (p : Parcel) : bool :=
  opt_all (fun s => (status p =? s)%string) (k_status k) &&
  opt_all (fun s => ObjectId_eqb (senderId p) s) (k_senderId k) &&
  opt_all (fun s => ObjectId_eqb (receiverId p) s) (k_receiverId k) &&
  opt_all (fun s => (trackingId p =? s)%string) (k_trackingId k) &&
  opt_all (existsb (fun fr => regex_test (source (snd fr)) (field_of (fst fr) p)))
          (k_or k) &&
  opt_all (fun d => (d <=? createdAt p)%Z) (k_gte k) &&
  opt_all (fun d => (createdAt p <=? d)%Z) (k_lte k).

(** [.limit(n)]: zero means no limit, a negative number its absolute value. *)
Definition take_limit (limit : Z) (l : list Parcel) : list Parcel :=
  if (limit =? 0)%Z then l else firstn (Z.to_nat (Z.abs limit)) l.

(** [Parcel.find(q).sort(sort).skip(skip).limit(limit)]; the server refuses
    a negative skip. *)
Definition Parcel_find (q : MongoQuery) (sort : string) (skip limit : Z)
    : Async (list Parcel) :=
  fun c =>
    match castQuery q with
    | Throw e => (Throw e, c)
    | Ok k =>
        if (skip <? 0)%Z then (Throw MongoServerError, c)
        else (Ok (take_limit limit
                    (skipn (Z.to_nat skip) (sortDocs sort (filter (matches k) c)))), c)
    end.

(** [Parcel.countDocuments(q)]. *)
Definition Parcel_countDocuments (q : MongoQuery) : Async nat :=
  fun c =>
    match castQuery q with
    | Throw e => (Throw e, c)
    | Ok k => (Ok (length (filter (matches k) c)), c)
    end.

Definition listParcels (filters : Filters) (page limit : Z) (sort : string)
    : Async (list Populated * nat) :=
  q <- buildParcelsQuery filters ;;
  let skip := ((page - 1) * limit)%Z in
  items <- (found <- Parcel_find q sort skip limit ;;
            ret (map (populate sys) found)) ;;
  total <- Parcel_countDocuments q ;;
  ret (items, total).

(** *** The filter as the specification words it *)

(** A predicate is given when its key is present and not empty. *)
Definition given (o : option string) : option string := truthy o.

Definition date_from (s : string) (p : Parcel) : bool :=
  match Date_parse s with
  | Some d => (d <=? createdAt p)%Z
  | None => false
  end.

Definition date_to (s : string) (p : Parcel) : bool :=
  match Date_parse s with
  | Some d => (createdAt p <=? d)%Z
  | None => false
  end.

(** The predicates other than the free-text one. *)
Definition exact_and_dates (f : Filters) (p : Parcel) : bool :=
  opt_all (fun s => (status p =? s)%string) (given (f_status f)) &&
  opt_all (fun s => ObjectId_eqb (senderId p) (ObjectId_of sys s))
          (given (f_senderId f)) &&
  opt_all (fun s => ObjectId_eqb (receiverId p) (ObjectId_of sys s))
          (given (f_receiverId f)) &&
  opt_all (fun s => (trackingId p =? s)%string) (given (f_trackingId f)) &&
  opt_all (fun s => date_from s p) (given (f_fromDate f)) &&
  opt_all (fun s => date_to s p) (given (f_toDate f)).

(** The free-text term as a case-insensitive substring of one of the three
    fields. *)
Definition text_substring (f : Filters) (p : Parcel) : bool :=
  opt_all (fun t => includes_ci t (origin p) || includes_ci t (destination p)
                    || includes_ci t (trackingId p))
          (given (f_q f)).

(** The free-text term as a case-insensitive regular expression found in one
    of the three fields. *)
Definition text_regex (f : Filters) (p : Parcel) : bool :=
  opt_all (fun t => regex_test t (origin p) || regex_test t (destination p)
                    || regex_test t (trackingId p))
          (given (f_q f)).

Definition spec_matches (f : Filters) (p : Parcel) : bool :=
  exact_and_dates f p && text_substring f p.

Definition regex_matches (f : Filters) (p : Parcel) : bool :=
  exact_and_dates f p && text_regex f p.

End Query.

(** ** The request handlers *)

(** What the handlers read of a request: the identifier of the authenticated
    user ([req.user?.id]), the route parameter [id] and the fields of the
    body. *)
Record Request : Type := MkRequest {
  req_user_id : option string;
  req_params_id : option string;
  body_receiverId : option string;
  body_origin : option string;
  body_destination : option string;
  body_weight : option number;
  body_price : option number;
  body_note : option string;
  body_status : option string
}.

(** The text of a failure: a literal of the handler or of a thrown [Error],
    or whatever text a library put in its own error. *)
Inductive Message : Type :=
| Text (s : string)
| LibraryText (e : Exn).

Inductive Payload : Type :=
| success (data : Parcel)
| success_populated (data : Populated)
| fail (message : Message).

Record Response : Type := MkResponse {
  code : nat;
  json : Payload
}.

(** [err?.message || dflt]. *)
Definition message_or (e : Exn) (dflt : string) : Message :=
  match e with
  | Error m => Text (or_default (Some m) dflt)
  | _ => LibraryText e
  end.

Definition Handler : Type := Collection -> Response * Collection.

Section Handlers.

Variable sys : Setting.

Definition createParcelHandler (env : Env) (req : Request) : Handler :=
  fun c =>
    match truthy (req_user_id req) with
    | None => (MkResponse 401 (fail (Text "Not authenticated")), c)
    | Some uid =>
        match truthy (body_receiverId req), truthy (body_origin req),
              truthy (body_destination req) with
        | Some receiverId, Some origin, Some destination =>
            let senderId := uid in
            let dto := MkDTO senderId receiverId origin destination
                             (body_weight req) (body_price req) (body_note req) in
            match createParcel sys env dto c with
            | (Ok parcel, c') => (MkResponse 201 (success parcel), c')
            | (Throw err, c') =>
                (MkResponse 400 (fail (message_or err "Could not create parcel")), c')
            end
        | _, _, _ =>
            (MkResponse 400 (fail (Text "Missing required parcel fields")), c)
        end
    end.

Definition updateStatusHandler (env : Env) (req : Request) : Handler :=
  fun c =>
    match truthy (req_user_id req) with
    | None => (MkResponse 401 (fail (Text "Not authenticated")), c)
    | Some uid =>
        match truthy (req_params_id req) with
        | None => (MkResponse 400 (fail (Text "Missing parcel id")), c)
        | Some id =>
            match truthy (body_status req) with
            | None => (MkResponse 400 (fail (Text "Missing status")), c)
            | Some status =>
                match updateParcelStatus sys env id status
                                         (Some uid) (body_note req) c with
                | (Ok (Some updated), c') =>
                    (MkResponse 200 (success_populated updated), c')
                | (Ok None, c') =>
                    (MkResponse 404 (fail (Text "Parcel not found")), c')
                | (Throw err, c') =>
                    (MkResponse 400 (fail (message_or err "Could not update status")), c')
                end
            end
        end
    end.

Definition cancelParcelHandler (env : Env) (req : Request) : Handler :=
  fun c =>
    match truthy (req_user_id req) with
    | None => (MkResponse 401 (fail (Text "Not authenticated")), c)
    | Some uid =>
        match truthy (req_params_id req) with
        | None => (MkResponse 400 (fail (Text "Missing parcel id")), c)
        | Some id =>
            match cancelParcel sys env id (Some uid) c with
            | (Ok (Some cancelled), c') =>
                (MkResponse 200 (success_populated cancelled), c')
            | (Ok None, c') =>
                (MkResponse 404 (fail (Text "Parcel not found")), c')
            | (Throw err, c') =>
                (MkResponse 400 (fail (message_or err "Could not cancel parcel")), c')
            end
        end
    end.

End Handlers.

(** ** Operations and their sequences *)

(** One call of a mutating operation of the service. *)
Inductive Op : Type :=
| OpCreate (env : Env) (dto : CreateParcelDTO)
| OpUpdateStatus (env : Env) (parcelId status : string)
                 (updatedBy note : option string)
| OpCancel (env : Env) (parcelId : string) (userId : option string).

Section Runs.

Variable sys : Setting.

(** The call an operation stands for, and of what it returns the parcel's
    stored fields: those of the created parcel, or those of the updated or
    cancelled document. *)
Definition run (op : Op) : Async (option Parcel) :=
  match op with
  | OpCreate env dto =>
      p <- createParcel sys env dto ;; ret (Some p)
  | OpUpdateStatus env parcelId status updatedBy note =>
      p <- updateParcelStatus sys env parcelId status updatedBy note ;;
      ret (option_map doc p)
  | OpCancel env parcelId userId =>
      p <- cancelParcel sys env parcelId userId ;;
      ret (option_map doc p)
  end.

(** The collection after a sequence of calls, whatever each one returned. *)
Fixpoint run_all (ops : list Op) (c : Collection) : Collection :=
  match ops with
  | [] => c
  | op :: ops' => run_all ops' (snd (run op c))
  end.

(** The same cancellation issued [n] times in a row. *)
Fixpoint cancel_times (n : nat) (env : Env) (parcelId : string)
    (userId : option string) (c : Collection) : Collection :=
  match n with
  | O => c
  | S n' =>
      cancel_times n' env parcelId userId
                   (snd (cancelParcel sys env parcelId userId c))
  end.

End Runs.

(** The stored document with a given identifier. *)
Definition stored (id : ObjectId) (c : Collection) : option Parcel :=
  find (fun p => ObjectId_eqb (_id p) id) c.

(** The invariant of the data model: the log is not empty and its last entry
    records the current status. *)
Definition log_tracks_status (p : Parcel) : Prop :=
  exists older l, statusLogs p = older ++ [l] /\ log_status l = status p.

(** An acting user identifier the driver accepts, or none. *)
Definition acting_user_ok (valid : string -> bool) (u : option string) : Prop :=
  forall s, truthy u = Some s -> valid s = true.

(** ** Sample instances of what the libraries supply *)

Definition is_hex (a : ascii) : bool :=
  let n := nat_of_ascii a in
  ((48 <=? n)%nat && (n <=? 57)%nat) ||
  ((65 <=? n)%nat && (n <=? 70)%nat) ||
  ((97 <=? n)%nat && (n <=? 102)%nat).

(** The driver's rule for strings: twenty-four hexadecimal digits. *)
Definition hex24 (s : string) : bool :=
  (String.length s =? 24)%nat && forallb is_hex (list_ascii_of_string s).

(** A matcher for patterns made of literal characters and the wildcard
    [.], which stands for any character but a line break. *)
Definition dot_char (a b : ascii) : bool :=
  if Ascii.eqb a "."%char
  then negb (Ascii.eqb b "010"%char || Ascii.eqb b "013"%char)
  else Ascii.eqb (lower a) (lower b).

Fixpoint dot_prefix (t s : string) : bool :=
  match t, s with
  | EmptyString, _ => true
  | String a t', String b s' => dot_char a b && dot_prefix t' s'
  | String _ _, EmptyString => false
  end.

Fixpoint dot_test (t s : string) : bool :=
  dot_prefix t s ||
  match s with
  | EmptyString => false
  | String _ s' => dot_test t s'
  end.

Fixpoint dot_compiles (t : string) : bool :=
  match t with
  | EmptyString => true
  | String a t' => (negb (is_meta a) || Ascii.eqb a "."%char) && dot_compiles t'
  end.

(** A few ISO dates and their instants. *)
Definition sample_dates (s : string) : JsDate :=
  if s =? "1970-01-01" then Some 0%Z
  else if s =? "1970-01-02" then Some 86400000%Z
  else if s =? "1970-01-03" then Some 172800000%Z
  else None.

(** Newest first, by insertion. *)
Fixpoint insert_newest (p : Parcel) (l : list Parcel) : list Parcel :=
  match l with
  | [] => [p]
  | q :: l' =>
      if (createdAt q <=? createdAt p)%Z then p :: l
      else q :: insert_newest p l'
  end.

Definition newest_first (_ : string) (l : list Parcel) : list Parcel :=
  fold_right insert_newest [] l.

(** The driver's reading of a valid string: its digits in lower case. *)
Fixpoint lower_hex (s : string) : string :=
  match s with
  | EmptyString => EmptyString
  | String a s' => String (lower a) (lower_hex s')
  end.

Definition oid (s : string) : ObjectId := MkObjectId s.

Definition id_a : string := "aaaaaaaaaaaaaaaaaaaaaaaa".
Definition id_b : string := "bbbbbbbbbbbbbbbbbbbbbbbb".
Definition id_s : string := "0123456789abcdef01234567".
Definition id_r : string := "fedcba9876543210fedcba98".

(** Two users; nobody else is registered. *)
Definition users0 (o : ObjectId) : option UserView :=
  if ObjectId_eqb o (oid id_s) then Some (MkUserView o "Sade" "sade@example.com")
  else if ObjectId_eqb o (oid id_r) then Some (MkUserView o "Remi" "remi@example.com")
  else None.

Definition sys0 : Setting := MkSetting hex24 lower_hex users0.

(** An upper-case spelling of the identifier [id_a]. *)
Definition id_A : string := "AAAAAAAAAAAAAAAAAAAAAAAA".

Definition env0 : Env := MkEnv 1000%Z "TRK-0001" (oid id_a).
Definition env1 : Env := MkEnv 2000%Z "TRK-0002" (oid id_b).

Definition dto0 : CreateParcelDTO :=
  MkDTO id_s id_r "Lagos" "Abuja" None None None.

Definition created0 : Parcel :=
  MkParcel (oid id_a) "TRK-0001" (oid id_s) (oid id_r) "Lagos" "Abuja" None None
           "Created" [MkStatusLog "Created" 1000%Z (Some "Parcel created") (Some (oid id_s))]
           1000%Z.

Definition dispatched0 : Parcel :=
  push_statusLog (set_status created0 "Dispatched")
                 (MkStatusLog "Dispatched" 2000%Z None (Some (oid id_s))).

Definition cancelled0 : Parcel :=
  push_statusLog (set_status created0 "Cancelled")
                 (MkStatusLog "Cancelled" 2000%Z (Some "Cancelled by user") None).

(** A complete body sent by nobody. *)
Definition req_anonymous : Request :=
  MkRequest None None (Some id_r) (Some "Lagos") (Some "Abuja") None None None None.

(** A search for the term made of a single dot. *)
Definition filters_dot : Filters :=
  MkFilters None None None None (Some ".") None None.

Definition parcel_b : Parcel :=
  MkParcel (oid id_b) "TRK-0002" (oid id_s) (oid id_r) "Kano" "Ibadan" None None
           "Dispatched"
           [MkStatusLog "Created" 2000%Z (Some "Parcel created") (Some (oid id_s));
            MkStatusLog "Dispatched" 2500%Z None (Some (oid id_s))]
           2000%Z.

Definition parcel_c : Parcel :=
  MkParcel (oid id_r) "TRK-0003" (oid id_s) (oid id_r) "Enugu" "Jos" None None
           "Delivered"
           [MkStatusLog "Created" 3000%Z (Some "Parcel created") (Some (oid id_s));
            MkStatusLog "Delivered" 3500%Z None (Some (oid id_s))]
           3000%Z.

Definition three_parcels : Collection := [created0; parcel_b; parcel_c].

Definition filters_dispatched : Filters :=
  MkFilters (Some "Dispatched") None None None None None None.

(** A search for a plain term, among the parcels of one sender. *)
Definition filters_plain : Filters :=
  MkFilters None (Some id_s) None None (Some "aBu") (Some "1970-01-01") None.

Definition list0 := listParcels sys0 dot_compiles dot_test sample_dates newest_first.

Definition ops0 : list Op :=
  [OpUpdateStatus env1 id_a "Dispatched" (Some id_s) None;
   OpCancel env1 id_a None;
   OpCreate env1 dto0;
   OpUpdateStatus env1 id_a "Delivered" None (Some "left at the door")].

(** ** Vocabulary of the properties *)

(** The entry an update appends. *)
Definition update_entry (sys : Setting) (env : Env) (status : string)
    (updatedBy note : option string) : StatusLog :=
  MkStatusLog status (env_now env) note
              (option_map (ObjectId_of sys) (truthy updatedBy)).

(** The entry a cancellation appends. *)
Definition cancel_entry (sys : Setting) (env : Env) (userId : option string)
    : StatusLog :=
  MkStatusLog "Cancelled" (env_now env) (Some "Cancelled by user")
              (option_map (ObjectId_of sys) (truthy userId)).

(** The service reports a parcel that cannot be found by returning [null];
    the handlers answer 404 for it. *)
Definition NotFound : Res (option Populated) := Ok None.

(** The error [cancelParcel] throws once a parcel has been dispatched. *)
Definition IllegalTransitionError : Exn := Error "Cannot cancel parcel after dispatch".

(** [updatedBy] of an entry is present exactly when an acting user identifier
    was supplied (present and not empty), and then it is that identifier. *)
Definition updatedBy_iff_supplied (sys : Setting) (l : StatusLog)
    (user : option string) : Prop :=
  forall u, log_updatedBy l = Some u <->
            exists s, user = Some s /\ s <> "" /\ u = ObjectId_of sys s.

(** The generated tracking code is not that of a stored parcel. *)
Definition fresh_tracking (env : Env) (c : Collection) : Prop :=
  existsb (fun p => (trackingId p =? env_trackingId env)%string) c = false.

(** What a call did: it failed and changed nothing; or it inserted a new
    document [q]; or it replaced the stored document [p] by [q]. *)
Inductive Outcome (c : Collection) : Res (option Parcel) -> Collection -> Prop :=
| NotFound_outcome : Outcome c (Ok None) c
| Thrown_outcome e : Outcome c (Throw e) c
| Inserted_outcome q l :
    statusLogs q = [l] -> log_status l = status q ->
    Outcome c (Ok (Some q)) (c ++ [q])
| Replaced_outcome p q l c' :
    stored (_id q) c = Some p ->
    statusLogs q = statusLogs p ++ [l] -> log_status l = status q ->
    replace_doc q c = Some c' ->
    Outcome c (Ok (Some q)) c'.

(** A field of a request is absent when it is missing or empty. *)
Definition absent (o : option string) : Prop := truthy o = None.

(** A validation error is answered with the code 400. *)
Definition is_ValidationError (r : Response) : Prop := code r = 400.

(** The claim in the specification's words: a creation request that lacks
    the sender, the receiver, the origin or the destination is rejected with
    a validation error and creates nothing. *)
Definition create_validates_presence (sys : Setting) : Prop :=
  forall env req c,
    absent (req_user_id req) \/ absent (body_receiverId req) \/
    absent (body_origin req) \/ absent (body_destination req) ->
    is_ValidationError (fst (createParcelHandler sys env req c)) /\
    snd (createParcelHandler sys env req c) = c.

(** On a term without special characters the matcher is the
    case-insensitive substring test. *)
Definition literal_law (regex_test : string -> string -> bool) : Prop :=
  forall t s, meta_free t = true -> regex_test t s = includes_ci t s.

(** The claim in the specification's words: the listing returns only
    parcels that pass the exact, substring and date predicates, and the total
    counts all of them. *)
Definition query_filters_by_substring
    (sys : Setting) (compiles : string -> bool) (test : string -> string -> bool)
    (parse : string -> JsDate) (sortDocs : string -> list Parcel -> list Parcel)
    : Prop :=
  forall filters page limit sort c items total c',
    listParcels sys compiles test parse sortDocs filters page limit sort c
      = (Ok (items, total), c') ->
    (forall d, In d items -> spec_matches sys parse filters (doc d) = true) /\
    total = length (filter (spec_matches sys parse filters) c).

(** The three alternatives of [$or] for a term. *)
Definition or_of (t : string) : list (Field * RegExp) :=
  [(F_origin, MkRegExp t); (F_destination, MkRegExp t); (F_trackingId, MkRegExp t)].

(** ** The other handlers of the controller *)

(** [req.user] as the authentication middleware leaves it. *)
Record AuthUser : Type := MkAuthUser {
  auth_id : option string;
  auth_role : string
}.

(** [String(user.id)]. *)
Definition String_of_id (u : AuthUser) : string :=
  match auth_id u with
  | Some s => s
  | None => "undefined"
  end.

(** [req.query]: the filter keys and what [parsePagination] reads. *)
Record QueryString : Type := MkQueryString {
  qs_filters : Filters;
  qs_page : option string;
  qs_limit : option string;
  qs_sort : option string
}.

(** The JSON bodies these handlers send: the success, fail and error
    envelopes, the page [buildPaginationResult(items, total, page, limit)]
    (that utility is not among the sources, so the page is kept as its
    four arguments) and the statistics. *)
Inductive Envelope : Type :=
| env_success (data : Populated)
| env_fail (message : string)
| env_error (message : string)
| env_page (items : list Populated) (total : nat) (page limit : Z)
| env_stats (total delivered inTransit : nat) (monthly : list (string * nat)).

Record Reply : Type := MkReply {
  reply_code : nat;
  reply_json : Envelope
}.

Definition getParcelByTrackingHandler (sys : Setting) (param : option string)
    : Collection -> Reply * Collection :=
  fun c =>
    match truthy param with
    | None => (MkReply 400 (env_fail "Missing trackingId parameter"), c)
    | Some trackingId =>
        match getParcelByTrackingId sys trackingId c with
        | (Ok (Some parcel), c') => (MkReply 200 (env_success parcel), c')
        | (Ok None, c') => (MkReply 404 (env_fail "Parcel not found"), c')
        | (Throw _, c') => (MkReply 500 (env_error "Server error"), c')
        end
    end.

(** [filters.senderId = v] and [filters.receiverId = v]. *)
Definition set_f_senderId (f : Filters) (v : string) : Filters :=
  MkFilters (f_status f) (Some v) (f_receiverId f) (f_trackingId f)
            (f_q f) (f_fromDate f) (f_toDate f).

Definition set_f_receiverId (f : Filters) (v : string) : Filters :=
  MkFilters (f_status f) (f_senderId f) (Some v) (f_trackingId f)
            (f_q f) (f_fromDate f) (f_toDate f).

(** The filters of a listing request once restricted by the user's role. *)
Definition role_filters (user : option AuthUser) (query : Filters) : Filters :=
  let filters := query in
  let filters :=
    match user with
    | Some u => if (auth_role u =? "sender")%string
                then set_f_senderId filters (String_of_id u) else filters
    | None => filters
    end in
  match user with
  | Some u => if (auth_role u =? "receiver")%string
              then set_f_receiverId filters (String_of_id u) else filters
  | None => filters
  end.

(** [String(n)] of an integer and [s.padStart(2, "0")]. *)
Definition String_of_Z (n : Z) : string :=
  DecimalString.NilEmpty.string_of_int (Z.to_int n).

Definition padStart2 (s : string) : string :=
  match String.length s with
  | 0 => "00"
  | 1 => "0" ++ s
  | _ => s
  end.

(** A plain object with string keys and number values, in insertion order. *)
Definition Obj := list (string * nat).

Fixpoint obj_get (k : string) (o : Obj) : option nat :=
  match o with
  | [] => None
  | (k', v) :: o' => if (k' =? k)%string then Some v else obj_get k o'
  end.

Fixpoint obj_set (k : string) (v : nat) (o : Obj) : Obj :=
  match o with
  | [] => [(k, v)]
  | (k', v') :: o' =>
      if (k' =? k)%string then (k, v) :: o' else (k', v') :: obj_set k v o'
  end.

(** [keys.sort()]: ascending by code unit. *)
Fixpoint insert_key (k : string) (l : list string) : list string :=
  match l with
  | [] => [k]
  | k' :: l' => if String.leb k k' then k :: l else k' :: insert_key k l'
  end.

Definition sort_keys (l : list string) : list string :=
  fold_right insert_key [] l.

(** The sort object [{ createdAt: -1 }], named by its text. *)
Definition sort_createdAt_desc : string := "{ createdAt: -1 }".

Section OtherHandlers.

Variable sys : Setting.
Variable RegExp_compiles : string -> bool.
Variable regex_test : string -> string -> bool.
Variable Date_parse : string -> JsDate.
Variable sortDocs : string -> list Parcel -> list Parcel.

(** [parsePagination] of the utilities, which are not among the sources. *)
Variable parsePagination : QueryString -> Z * Z * string.

(** [d.getFullYear()], [d.getMonth()] and [new Date(year, month, 1)], in
    the server's time zone. *)
Variable getFullYear : Date -> Z.
Variable getMonth : Date -> Z.
Variable Date_of_month : Z -> Z -> Date.

Definition listParcelsHandler (user : option AuthUser) (query : QueryString)
    : Collection -> Reply * Collection :=
  fun c =>
    let '(page, limit, sort) := parsePagination query in
    let filters := role_filters user (qs_filters query) in
    match listParcels sys RegExp_compiles regex_test Date_parse sortDocs
                      filters page limit sort c with
    | (Ok (items, total), c') => (MkReply 200 (env_page items total page limit), c')
    | (Throw _, c') => (MkReply 500 (env_error "Server error"), c')
    end.

(** The key of a date's month: the year, a dash, the month on two digits. *)
Definition month_key (d : Date) : string :=
  String_of_Z (getFullYear d) ++ "-" ++ padStart2 (String_of_Z (getMonth d + 1)).

(** The number of parcels created in the month of a key. *)
Definition created_in (k : string) (l : list Parcel) : nat :=
  length (filter (fun p => (month_key (createdAt p) =? k)%string) l).

(** The six keys the loop of [getStats] sets to zero, for [i] from 0 to 5. *)
Definition recent_keys (now : Date) : list string :=
  map (fun i => month_key (Date_of_month (getFullYear now) (getMonth now - i)))
      [0; 1; 2; 3; 4; 5]%Z.

Definition init_months (now : Date) : Obj :=
  fold_left (fun o k => obj_set k 0 o) (recent_keys now) [].

(** One round of [items.forEach].  A stored parcel always has a valid
    creation time, so the two early returns of the callback never fire. *)
Definition count_item (o : Obj) (p : Parcel) : Obj :=
  let key := month_key (createdAt p) in
  match obj_get key o with
  | Some n => obj_set key (n + 1) o
  | None => o
  end.

Definition monthly_of (now : Date) (items : list Parcel) : list (string * nat) :=
  let monthlyMap := fold_left count_item items (init_months now) in
  map (fun k => (k, match obj_get k monthlyMap with Some n => n | None => 0 end))
      (sort_keys (map fst monthlyMap)).

Definition is_delivered (p : Parcel) : bool := (status p =? "delivered")%string.

Definition is_inTransit (p : Parcel) : bool :=
  negb (status p =? "")%string && negb (status p =? "delivered")%string.

(** [getStats], on the path taken when the service has no [getStats] of its
    own (the service above has none).  The listing returns an array and a
    number, so the handler's two normalisations keep them as they are; the
    counts read only stored fields of the items, their status and creation
    time. *)
Definition getStats (now : Date) : Collection -> Reply * Collection :=
  fun c =>
    match listParcels sys RegExp_compiles regex_test Date_parse sortDocs
                      no_filters 1 100000 sort_createdAt_desc c with
    | (Ok (items, total), c') =>
        let items := map doc items in
        let delivered := length (filter is_delivered items) in
        let inTransit := length (filter is_inTransit items) in
        (MkReply 200 (env_stats total delivered inTransit (monthly_of now items)), c')
    | (Throw _, c') => (MkReply 500 (env_error "Server error"), c')
    end.

End OtherHandlers.

(** ** Origins the application accepts *)

Definition allowedOrigins : list string :=
  ["http://localhost:5173"; "http://localhost:3000";
   "https://swiftdrop-client.netlify.app"].

(** [s.replace(/\/+$/, "")]: the string without its trailing slashes. *)
Fixpoint strip_trailing_slashes (s : string) : string :=
  match s with
  | EmptyString => EmptyString
  | String a s' =>
      match strip_trailing_slashes s' with
      | EmptyString => if Ascii.eqb a "/"%char then EmptyString else String a EmptyString
      | r => String a r
      end
  end.

(** [s.endsWith(t)]. *)
Fixpoint endsWith (s t : string) : bool :=
  (s =? t)%string ||
  match s with
  | EmptyString => false
  | String _ s' => endsWith s' t
  end.

Section Origins.

(** [new URL(s).hostname]; [None] when the constructor throws. *)
Variable URL_hostname : string -> option string.

Definition isAllowedOrigin (originHeader : option string) : bool :=
  match truthy originHeader with
  | None => true
  | Some originHeader =>
      let normalized := strip_trailing_slashes originHeader in
      if includes allowedOrigins normalized then true
      else
        match URL_hostname normalized with
        | Some hostname => if endsWith hostname "netlify.app" then true else false
        | None => false
        end
  end.

End Origins.

(** ** More vocabulary *)

(** The fields no operation of the service assigns after creation. *)
Definition same_identity (p p' : Parcel) : Prop :=
  _id p' = _id p /\ trackingId p' = trackingId p /\
  senderId p' = senderId p /\ receiverId p' = receiverId p /\
  origin p' = origin p /\ destination p' = destination p /\
  weight p' = weight p /\ price p' = price p /\ createdAt p' = createdAt p.

(** The log starts with the entry of the creation, signed by the sender. *)
Definition born_created (p : Parcel) : Prop :=
  exists l rest,
    statusLogs p = l :: rest /\
    log_status l = "Created" /\ log_updatedBy l = Some (senderId p).

(** The operation is a creation. *)
Definition is_create (op : Op) : bool :=
  match op with
  | OpCreate _ _ => true
  | _ => false
  end.

(** What one call does to the collection: nothing; or it appends the
    document it returns; or it puts, in place of a stored document, that
    document with another status and one more log entry. *)
Inductive Effect (op : Op) (c : Collection) : Res (option Parcel) -> Collection -> Prop :=
| Effect_none r :
    (forall q, r <> Ok (Some q)) -> Effect op c r c
| Effect_insert q :
    is_create op = true -> Effect op c (Ok (Some q)) (c ++ [q])
| Effect_replace p st l c' :
    is_create op = false ->
    stored (_id p) c = Some p ->
    replace_doc (push_statusLog (set_status p st) l) c = Some c' ->
    Effect op c (Ok (Some (push_statusLog (set_status p st) l))) c'.

(** ** The preflight middleware *)

Definition defaultCorsMethods : list string :=
  ["GET"; "HEAD"; "PUT"; "PATCH"; "POST"; "DELETE"; "OPTIONS"].

Definition defaultAllowedHeaders : list string :=
  ["Content-Type"; "Authorization"; "X-Requested-With"].

(** What the middleware does with a request: hand it on, or answer it with
    a status, the headers it set and, for a refusal, the error text. *)
Inductive Preflight : Type :=
| next
| answer (status : nat) (headers : list (string * string)) (error : option string).

Section PreflightMiddleware.

Variable URL_hostname : string -> option string.

Definition preflight (method : string) (origin : option string) : Preflight :=
  if negb (method =? "OPTIONS")%string then next
  else
    let originHeader := or_default origin "" in
    let normalized := strip_trailing_slashes originHeader in
    if negb (isAllowedOrigin URL_hostname (Some originHeader))
    then answer 403 [] (Some ("CORS not allowed for origin " ++ normalized)%string)
    else
      answer 204
        [("Access-Control-Allow-Origin", or_default (Some originHeader) "*");
         ("Access-Control-Allow-Methods", String.concat "," defaultCorsMethods);
         ("Access-Control-Allow-Headers", String.concat "," defaultAllowedHeaders);
         ("Access-Control-Allow-Credentials", "true")]
        None.

End PreflightMiddleware.

(** The value of a header among those set. *)
Definition header (name : string) (hs : list (string * string)) : option string :=
  option_map snd (find (fun h => (fst h =? name)%string) hs).

(** A reader of host names for the samples: what follows [http://] or
    [https://], up to a slash, colon, question mark or hash. *)
Fixpoint take_host (s : string) : string :=
  match s with
  | EmptyString => EmptyString
  | String a s' =>
      if existsb (Ascii.eqb a) (list_ascii_of_string "/:?#") then EmptyString
      else String a (take_host s')
  end.

Definition sample_hostname (s : string) : option string :=
  if String.prefix "https://" s
  then Some (take_host (String.substring 8 (String.length s - 8) s))
  else if String.prefix "http://" s
  then Some (take_host (String.substring 7 (String.length s - 7) s))
  else None.

Definition sample_paging (_ : QueryString) : Z * Z * string :=
  (1%Z, 10%Z, "-createdAt").

(** A calendar of twelve months of thirty days for the samples. *)
Definition sample_year (d : Date) : Z := (1970 + d / 31104000000)%Z.
Definition sample_month (d : Date) : Z := ((d / 2592000000) mod 12)%Z.
Definition sample_first (y m : Z) : Date :=
  (((y - 1970) * 12 + m) * 2592000000)%Z.

Definition sender_s : AuthUser := MkAuthUser (Some id_s) "sender".

(** A parcel of another sender. *)
Definition parcel_d : Parcel :=
  MkParcel (oid id_b) "TRK-0004" (oid id_r) (oid id_s) "Lagos" "Kano" None None
           "Created"
           [MkStatusLog "Created" 4000%Z (Some "Parcel created") (Some (oid id_r))]
           4000%Z.

Definition req_cancel : Request :=
  MkRequest (Some id_s) (Some id_a) None None None None None None None.

(** The same request with the parcel's identifier spelled in upper case, and
    a status update spelled that way. *)
Definition req_cancel_upper : Request :=
  MkRequest (Some id_s) (Some id_A) None None None None None None None.

Definition req_update_upper : Request :=
  MkRequest (Some id_s) (Some id_A) None None None None None None
            (Some "Dispatched").

(** An upper-case spelling of the sender's identifier, as a filter. *)
Definition id_S : string := "0123456789ABCDEF01234567".

Definition filters_sender_upper : Filters :=
  MkFilters None (Some id_S) None None None None None.

(** [created0] as the lookups return it, and a parcel whose sender and
    receiver are not registered. *)
Definition populated0 : Populated :=
  MkPopulated created0 (Some (MkUserView (oid id_s) "Sade" "sade@example.com"))
              (Some (MkUserView (oid id_r) "Remi" "remi@example.com")).

Definition parcel_e : Parcel :=
  MkParcel (oid id_r) "TRK-0005" (oid id_a) (oid id_b) "Lagos" "Kano" None None
           "Created"
           [MkStatusLog "Created" 5000%Z (Some "Parcel created") (Some (oid id_a))]
           5000%Z.

Definition filters_paren : Filters :=
  MkFilters None None None None (Some "(") None None.

Definition filters_blank : Filters :=
  MkFilters (Some "") (Some "") None (Some "") (Some "") None (Some "").

Definition query_all : QueryString :=
  MkQueryString (MkFilters None (Some id_r) None None None None None) None None None.

Definition handler0 :=
  listParcelsHandler sys0 dot_compiles dot_test sample_dates newest_first sample_paging.

Definition four_parcels : Collection := [created0; parcel_d; parcel_c].

Definition stats0 :=
  getStats sys0 dot_compiles dot_test sample_dates newest_first
           sample_year sample_month sample_first.

Definition req_create : Request :=
  MkRequest (Some id_s) None (Some id_r) (Some "Lagos") (Some "Abuja")
            None None None None.

(** The five names of the lifecycle. *)
Definition lifecycle : list string :=
  ["Created"; "Dispatched"; "InTransit"; "Delivered"; "Cancelled"].

(** ** Facts about the collection *)

Lemma ObjectId_eqb_eq (a b : ObjectId) : ObjectId_eqb a b = true <-> a = b.
Proof.
  destruct a as [x], b as [y]; unfold ObjectId_eqb; simpl.
  rewrite String.eqb_eq. split; [intros ->; reflexivity | intros H; injection H; auto].
Qed.

Lemma ObjectId_eqb_refl (a : ObjectId) : ObjectId_eqb a a = true.
Proof. apply ObjectId_eqb_eq; reflexivity. Qed.

Lemma ObjectId_eqb_neq (a b : ObjectId) : ObjectId_eqb a b = false <-> a <> b.
Proof.
  split.
  - intros H E. apply ObjectId_eqb_eq in E. congruence.
  - intros H. destruct (ObjectId_eqb a b) eqn:E; [|reflexivity].
    apply ObjectId_eqb_eq in E. contradiction.
Qed.

Lemma stored_id (id : ObjectId) (c : Collection) (p : Parcel) :
  stored id c = Some p -> _id p = id.
Proof.
  unfold stored. intros H. apply find_some in H. destruct H as [_ H].
  now apply ObjectId_eqb_eq.
Qed.

Lemma stored_In (id : ObjectId) (c : Collection) (p : Parcel) :
  stored id c = Some p -> In p c.
Proof. unfold stored. intros H. now apply find_some in H. Qed.

(** Saving over a stored document puts the new state in its place and
    touches no other document. *)
Lemma replace_doc_stored (p p' : Parcel) (c : Collection) :
  stored (_id p') c = Some p ->
  exists c',
    replace_doc p' c = Some c' /\
    stored (_id p') c' = Some p' /\
    (forall id, id <> _id p' -> stored id c' = stored id c) /\
    In p' c' /\
    (forall q, In q c' -> q = p' \/ In q c).
Proof.
  induction c as [|d c IH]; simpl; [discriminate|].
  destruct (ObjectId_eqb (_id d) (_id p')) eqn:E.
  - intros _. exists (p' :: c). simpl. rewrite ObjectId_eqb_refl.
    repeat split; auto.
    + intros id Hid. apply ObjectId_eqb_eq in E. rewrite E.
      assert (ObjectId_eqb (_id p') id = false) as ->
          by (apply ObjectId_eqb_neq; congruence).
      reflexivity.
    + intros q [<-|Hq]; auto.
  - intros H. destruct (IH H) as (c' & Hr & Hs & Ho & Hin & Hfrom).
    exists (d :: c'). rewrite Hr. simpl. rewrite E.
    repeat split; auto.
    + intros id Hid. rewrite (Ho id Hid). reflexivity.
    + intros q [<-|Hq]; auto. destruct (Hfrom q Hq); auto.
Qed.

Section ServiceFacts.

Variable sys : Setting.

Local Abbreviation valid := (ObjectId_isValid sys).

Lemma getParcelById_eq (id : string) (c : Collection) :
  getParcelById sys id c =
  (Ok (option_map (populate sys)
         (if valid id then stored (ObjectId_of sys id) c else None)), c).
Proof. unfold getParcelById. destruct (valid id); reflexivity. Qed.

Lemma updateParcelStatus_found env id status updatedBy note c p :
  valid id = true ->
  stored (ObjectId_of sys id) c = Some p ->
  acting_user_ok valid updatedBy ->
  let p' := push_statusLog (set_status p status)
                           (update_entry sys env status updatedBy note) in
  exists c',
    updateParcelStatus sys env id status updatedBy note c
      = (Ok (Some (populate sys p')), c') /\
    replace_doc p' c = Some c'.
Proof.
  intros Hv Hs Hu p'.
  assert (Hid : _id p' = ObjectId_of sys id) by (apply (stored_id _ _ _ Hs)).
  destruct (@replace_doc_stored p p' c) as (c' & Hr & _); [now rewrite Hid|].
  exists c'. split; [|exact Hr].
  unfold updateParcelStatus, bind. rewrite getParcelById_eq, Hv, Hs.
  cbn [option_map]. unfold p', update_entry in *. red in Hu.
  destruct (truthy updatedBy) as [u|] eqn:Et.
  - unfold lift, ObjectId_new. rewrite (Hu u eq_refl). simpl.
    unfold save. unfold set_updatedBy; simpl. simpl in Hr. rewrite Hr. reflexivity.
  - simpl. unfold save. simpl in Hr. rewrite Hr. reflexivity.
Qed.

Lemma updateParcelStatus_bad_user env id status updatedBy note c p u :
  valid id = true ->
  stored (ObjectId_of sys id) c = Some p ->
  truthy updatedBy = Some u -> valid u = false ->
  updateParcelStatus sys env id status updatedBy note c = (Throw BSONError, c).
Proof.
  intros Hv Hs Ht Hu.
  unfold updateParcelStatus, bind. rewrite getParcelById_eq, Hv, Hs.
  cbn [option_map]. rewrite Ht.
  unfold lift, ObjectId_new. rewrite Hu. reflexivity.
Qed.

Lemma updateParcelStatus_absent env id status updatedBy note c :
  (valid id = false \/ stored (ObjectId_of sys id) c = None) ->
  updateParcelStatus sys env id status updatedBy note c = (Ok None, c).
Proof.
  intros H. unfold updateParcelStatus, bind. rewrite getParcelById_eq.
  destruct H as [-> | H]; [reflexivity|]. rewrite H. destruct (valid id); reflexivity.
Qed.

Lemma cancelParcel_found env id userId c p :
  valid id = true ->
  stored (ObjectId_of sys id) c = Some p ->
  includes after_dispatch (status p) = false ->
  acting_user_ok valid userId ->
  let p' := push_statusLog (set_status p "Cancelled") (cancel_entry sys env userId) in
  exists c',
    cancelParcel sys env id userId c = (Ok (Some (populate sys p')), c') /\
    replace_doc p' c = Some c'.
Proof.
  intros Hv Hs Hg Hu p'.
  assert (Hid : _id p' = ObjectId_of sys id) by (apply (stored_id _ _ _ Hs)).
  destruct (@replace_doc_stored p p' c) as (c' & Hr & _); [now rewrite Hid|].
  exists c'. split; [|exact Hr].
  unfold cancelParcel, bind. rewrite getParcelById_eq, Hv, Hs.
  cbn [option_map populate doc]. rewrite Hg.
  unfold p', cancel_entry in *. red in Hu.
  destruct (truthy userId) as [u|] eqn:Et.
  - unfold lift, ObjectId_new. rewrite (Hu u eq_refl). simpl.
    unfold save. unfold set_updatedBy; simpl. simpl in Hr. rewrite Hr. reflexivity.
  - simpl. unfold save. simpl in Hr. rewrite Hr. reflexivity.
Qed.

Lemma cancelParcel_refused env id userId c p :
  valid id = true ->
  stored (ObjectId_of sys id) c = Some p ->
  includes after_dispatch (status p) = true ->
  cancelParcel sys env id userId c =
  (Throw (Error "Cannot cancel parcel after dispatch"), c).
Proof.
  intros Hv Hs Hg. unfold cancelParcel, bind.
  rewrite getParcelById_eq, Hv, Hs. cbn [option_map populate doc].
  rewrite Hg. reflexivity.
Qed.

Lemma cancelParcel_bad_user env id userId c p u :
  valid id = true ->
  stored (ObjectId_of sys id) c = Some p ->
  includes after_dispatch (status p) = false ->
  truthy userId = Some u -> valid u = false ->
  cancelParcel sys env id userId c = (Throw BSONError, c).
Proof.
  intros Hv Hs Hg Ht Hu. unfold cancelParcel, bind.
  rewrite getParcelById_eq, Hv, Hs. cbn [option_map populate doc].
  rewrite Hg, Ht.
  unfold lift, ObjectId_new. rewrite Hu. reflexivity.
Qed.

Lemma cancelParcel_absent env id userId c :
  (valid id = false \/ stored (ObjectId_of sys id) c = None) ->
  cancelParcel sys env id userId c = (Ok None, c).
Proof.
  intros H. unfold cancelParcel, bind. rewrite getParcelById_eq.
  destruct H as [-> | H]; [reflexivity|]. rewrite H. destruct (valid id); reflexivity.
Qed.

Lemma includes_In (l : list string) (s : string) :
  includes l s = true <-> In s l.
Proof.
  unfold includes. rewrite existsb_exists. split.
  - intros (x & Hx & E). apply String.eqb_eq in E. now subst.
  - intros H. exists s. split; [assumption | apply String.eqb_refl].
Qed.

Lemma truthy_Some (o : option string) (s : string) :
  truthy o = Some s <-> o = Some s /\ s <> "".
Proof.
  destruct o as [x|]; simpl.
  - destruct (x =? "") eqn:E.
    + apply String.eqb_eq in E. subst. split; [discriminate|].
      intros [H1 H2]. injection H1 as <-. congruence.
    + apply String.eqb_neq in E. split.
      * intros H. injection H as <-. auto.
      * intros [H _]. exact H.
  - split; [discriminate | intros [H _]; discriminate].
Qed.

Lemma truthy_None (o : option string) :
  truthy o = None <-> o = None \/ o = Some "".
Proof.
  destruct o as [x|]; simpl.
  - destruct (x =? "") eqn:E.
    + apply String.eqb_eq in E. subst. split; auto.
    + apply String.eqb_neq in E. split; [discriminate|].
      intros [H|H]; [discriminate|]. injection H as ->. congruence.
  - split; auto.
Qed.

End ServiceFacts.

(** ** The lifecycle operations *)

Lemma updatedBy_of_truthy (sys : Setting) (st : string) (t : Date)
    (n user : option string) :
  updatedBy_iff_supplied sys
    (MkStatusLog st t n (option_map (ObjectId_of sys) (truthy user))) user.
Proof.
  intros u. simpl. split.
  - destruct (truthy user) as [s|] eqn:E; simpl; [|discriminate].
    intros H. injection H as <-. apply truthy_Some in E. destruct E. eauto.
  - intros (s & Hs & Hne & ->).
    assert (truthy user = Some s) as -> by (apply truthy_Some; auto).
    reflexivity.
Qed.

Section Lifecycle.

Variable sys : Setting.

Local Abbreviation valid := (ObjectId_isValid sys).

(** The state an update leaves: the parcel with the new status and one more
    entry, returned and stored. *)
Lemma updateParcelStatus_stored env id st updatedBy note c p :
  valid id = true ->
  stored (ObjectId_of sys id) c = Some p ->
  acting_user_ok valid updatedBy ->
  exists c',
    updateParcelStatus sys env id st updatedBy note c =
      (Ok (Some (populate sys
                   (push_statusLog (set_status p st)
                                   (update_entry sys env st updatedBy note)))), c') /\
    stored (ObjectId_of sys id) c' =
      Some (push_statusLog (set_status p st) (update_entry sys env st updatedBy note)).
Proof.
  intros Hv Hs Hu.
  destruct (updateParcelStatus_found sys env id st updatedBy note c p Hv Hs Hu)
    as (c' & Hrun & Hr).
  set (p' := push_statusLog (set_status p st) (update_entry sys env st updatedBy note)) in *.
  assert (Hid : _id p' = ObjectId_of sys id) by (apply (stored_id _ _ _ Hs)).
  destruct (replace_doc_stored p p' c) as (c2 & Hr2 & Hst & _); [now rewrite Hid|].
  rewrite Hr in Hr2. injection Hr2 as <-. rewrite Hid in Hst.
  exists c'. auto.
Qed.

(** C4.  On an existing parcel [updateParcelStatus] sets the status to the
    requested value whatever the current status is, and appends exactly one
    entry with the new status, the current time, the optional note, and
    [updatedBy] present exactly when an acting user identifier was supplied;
    on a parcel that does not exist (malformed or unknown identifier) it
    reports not-found and stores nothing.  The parcel is the stored one
    whose identifier the driver reads from the given string, however the
    string spells it, and the call returns it populated.  The acting user
    identifier is absent, empty (which counts as not supplied) or one the
    driver accepts. *)
Theorem updateStatus_sets_and_logs env id st updatedBy note c :
  acting_user_ok valid updatedBy ->
  (forall p, valid id = true -> stored (ObjectId_of sys id) c = Some p ->
     exists p' c' l,
       updateParcelStatus sys env id st updatedBy note c = (Ok (Some (populate sys p')), c') /\
       stored (ObjectId_of sys id) c' = Some p' /\
       status p' = st /\
       statusLogs p' = statusLogs p ++ [l] /\
       log_status l = st /\
       log_timestamp l = env_now env /\
       log_note l = note /\
       updatedBy_iff_supplied sys l updatedBy) /\
  (valid id = false \/ stored (ObjectId_of sys id) c = None ->
     updateParcelStatus sys env id st updatedBy note c = (NotFound, c)).
Proof.
  intros Hu. split.
  - intros p Hv Hs.
    destruct (updateParcelStatus_stored env id st updatedBy note c p Hv Hs Hu)
      as (c' & Hrun & Hst).
    exists (push_statusLog (set_status p st) (update_entry sys env st updatedBy note)),
           c', (update_entry sys env st updatedBy note).
    repeat split; try assumption; try reflexivity;
      apply (updatedBy_of_truthy sys st (env_now env) note updatedBy).
  - apply updateParcelStatus_absent.
Qed.

(** C1.  Cancelling a parcel whose status is Dispatched, InTransit or
    Delivered throws the illegal-transition error and leaves the collection,
    hence the parcel's status and log, as they were; with any other status
    the cancellation succeeds, sets the status to Cancelled and appends
    exactly one entry with the note "Cancelled by user" and [updatedBy]
    present exactly when an acting user identifier was supplied (the
    identifier being absent, empty, which counts as not supplied, or one the
    driver accepts). *)
Theorem cancel_guard env id userId c p :
  valid id = true ->
  stored (ObjectId_of sys id) c = Some p ->
  (In (status p) ["Dispatched"; "InTransit"; "Delivered"] ->
     cancelParcel sys env id userId c = (Throw IllegalTransitionError, c)) /\
  (~ In (status p) ["Dispatched"; "InTransit"; "Delivered"] ->
   acting_user_ok valid userId ->
     exists p' c' l,
       cancelParcel sys env id userId c = (Ok (Some (populate sys p')), c') /\
       stored (ObjectId_of sys id) c' = Some p' /\
       status p' = "Cancelled" /\
       statusLogs p' = statusLogs p ++ [l] /\
       log_status l = "Cancelled" /\
       log_note l = Some "Cancelled by user" /\
       updatedBy_iff_supplied sys l userId).
Proof.
  intros Hv Hs. split.
  - intros Hin. apply (cancelParcel_refused sys env id userId c p Hv Hs).
    now apply includes_In.
  - intros Hnin Hu.
    assert (Hg : includes after_dispatch (status p) = false).
    { destruct (includes after_dispatch (status p)) eqn:E; [|reflexivity].
      apply includes_In in E. contradiction. }
    destruct (cancelParcel_found sys env id userId c p Hv Hs Hg Hu) as (c' & Hrun & Hr).
    set (p' := push_statusLog (set_status p "Cancelled") (cancel_entry sys env userId)) in *.
    assert (Hid : _id p' = ObjectId_of sys id) by (apply (stored_id _ _ _ Hs)).
    destruct (@replace_doc_stored p p' c) as (c2 & Hr2 & Hst & _); [now rewrite Hid|].
    rewrite Hr in Hr2. injection Hr2 as <-.
    exists p', c', (cancel_entry sys env userId).
    rewrite <- Hid at 1.
    repeat split; try assumption; try reflexivity;
      apply (updatedBy_of_truthy sys "Cancelled" (env_now env)
               (Some "Cancelled by user") userId).
Qed.

(** A cancelled parcel stays stored as cancelled, one entry longer, after
    one more cancellation. *)
Lemma cancel_again_step env id userId c p :
  valid id = true ->
  stored (ObjectId_of sys id) c = Some p ->
  status p = "Cancelled" ->
  acting_user_ok valid userId ->
  exists p',
    cancelParcel sys env id userId c =
      (Ok (Some (populate sys p')), snd (cancelParcel sys env id userId c)) /\
    stored (ObjectId_of sys id) (snd (cancelParcel sys env id userId c)) = Some p' /\
    status p' = "Cancelled" /\
    statusLogs p' = statusLogs p ++ [cancel_entry sys env userId].
Proof.
  intros Hv Hs Hst Hu.
  assert (Hg : includes after_dispatch (status p) = false) by (rewrite Hst; reflexivity).
  destruct (cancelParcel_found sys env id userId c p Hv Hs Hg Hu) as (c' & Hrun & Hr).
  set (p' := push_statusLog (set_status p "Cancelled") (cancel_entry sys env userId)) in *.
  assert (Hid : _id p' = ObjectId_of sys id) by (apply (stored_id _ _ _ Hs)).
  destruct (replace_doc_stored p p' c) as (c2 & Hr2 & Hst2 & _); [now rewrite Hid|].
  rewrite Hr in Hr2. injection Hr2 as <-.
  rewrite Hid in Hst2.
  exists p'. rewrite Hrun. simpl. auto.
Qed.

(** C9.  Cancelling a parcel that is already Cancelled does not fail: it
    succeeds again, the status stays Cancelled and one more entry with
    status Cancelled and note "Cancelled by user" is appended; so [n]
    cancellations in a row make the log [n] entries longer.  (The acting
    user identifier is absent, empty or one the driver accepts.) *)
Theorem cancel_twice_grows_log env id userId c p :
  valid id = true ->
  stored (ObjectId_of sys id) c = Some p ->
  status p = "Cancelled" ->
  acting_user_ok valid userId ->
  (exists p' c' l,
     cancelParcel sys env id userId c = (Ok (Some (populate sys p')), c') /\
     stored (ObjectId_of sys id) c' = Some p' /\
     status p' = "Cancelled" /\
     statusLogs p' = statusLogs p ++ [l] /\
     log_status l = "Cancelled" /\
     log_note l = Some "Cancelled by user") /\
  (forall n, exists pn,
     stored (ObjectId_of sys id) (cancel_times sys n env id userId c) = Some pn /\
     status pn = "Cancelled" /\
     length (statusLogs pn) = length (statusLogs p) + n).
Proof.
  intros Hv Hs Hst Hu. split.
  - destruct (cancel_again_step env id userId c p Hv Hs Hst Hu)
      as (p' & Hrun & Hs' & Hst' & Hl).
    exists p', (snd (cancelParcel sys env id userId c)), (cancel_entry sys env userId).
    repeat split; assumption || reflexivity.
  - intros n. revert c p Hs Hst.
    induction n as [|n IH]; intros c p Hs Hst.
    + exists p. simpl. rewrite Nat.add_0_r. auto.
    + destruct (cancel_again_step env id userId c p Hv Hs Hst Hu)
        as (p' & _ & Hs' & Hst' & Hl).
      destruct (IH _ p' Hs' Hst') as (pn & H1 & H2 & H3).
      exists pn. simpl. repeat split; try assumption.
      rewrite H3, Hl, length_app. simpl. lia.
Qed.

(** C10.  [updateParcelStatus] takes any string as the new status, inside
    or outside the five lifecycle names: it makes no membership test, stores
    the string as the parcel's status and records the same string in the
    appended entry; the handler passes on every status of the body that is
    not empty.  (The acting user identifier is absent, empty or one the
    driver accepts.) *)
Theorem updateStatus_any_string env id (st : string) updatedBy note c p :
  valid id = true ->
  stored (ObjectId_of sys id) c = Some p ->
  acting_user_ok valid updatedBy ->
  (exists p' c' l,
     updateParcelStatus sys env id st updatedBy note c
       = (Ok (Some (populate sys p')), c') /\
     stored (ObjectId_of sys id) c' = Some p' /\
     status p' = st /\
     statusLogs p' = statusLogs p ++ [l] /\
     log_status l = st) /\
  (forall req uid,
     truthy (req_user_id req) = Some uid -> valid uid = true ->
     truthy (req_params_id req) = Some id ->
     truthy (body_status req) = Some st ->
     exists p' c',
       updateStatusHandler sys env req c
         = (MkResponse 200 (success_populated (populate sys p')), c') /\
       stored (ObjectId_of sys id) c' = Some p' /\
       status p' = st).
Proof.
  intros Hv Hs Hu. split.
  - destruct (updateParcelStatus_stored env id st updatedBy note c p Hv Hs Hu)
      as (c' & H1 & H2).
    exists (push_statusLog (set_status p st) (update_entry sys env st updatedBy note)),
           c', (update_entry sys env st updatedBy note).
    auto.
  - intros req uid Huid Hvu Hid Hst.
    assert (Hok : acting_user_ok valid (Some uid)).
    { intros s E. apply truthy_Some in Huid. destruct Huid as [_ Hne].
      assert (truthy (Some uid) = Some uid) as E' by (apply truthy_Some; auto).
      rewrite E' in E. injection E as <-. exact Hvu. }
    destruct (updateParcelStatus_stored env id st (Some uid) (body_note req) c p
                Hv Hs Hok) as (c' & H1 & H2).
    eexists. exists c'. unfold updateStatusHandler. rewrite Huid, Hid, Hst, H1. auto.
Qed.

(** [createParcel] returns a parcel only for identifiers the driver accepts
    and a tracking code not yet in use, and then the parcel is the new last
    document of the collection. *)
Lemma createParcel_Ok_inv env dto c p c' :
  createParcel sys env dto c = (Ok p, c') ->
  c' = c ++ [p] /\
  p = MkParcel (env_objectId env) (env_trackingId env)
               (ObjectId_of sys (dto_senderId dto)) (ObjectId_of sys (dto_receiverId dto))
               (dto_origin dto) (dto_destination dto) (dto_weight dto) (dto_price dto)
               "Created"
               [MkStatusLog "Created" (env_now env)
                  (Some (or_default (dto_note dto) "Parcel created"))
                  (Some (ObjectId_of sys (dto_senderId dto)))]
               (env_now env).
Proof.
  unfold createParcel, bind, lift, ObjectId_new, Parcel_create.
  destruct (valid (dto_senderId dto)); [|discriminate].
  destruct (valid (dto_receiverId dto)); [|discriminate].
  destruct (existsb _ c); [discriminate|].
  intros H. injection H as <- <-. auto.
Qed.

Lemma createParcel_not_Ok env dto c e c' :
  createParcel sys env dto c = (Throw e, c') -> c' = c.
Proof.
  unfold createParcel, bind, lift, ObjectId_new, Parcel_create.
  destruct (valid (dto_senderId dto)); [|intros H; now injection H].
  destruct (valid (dto_receiverId dto)); [|intros H; now injection H].
  destruct (existsb _ c); [intros H; now injection H|discriminate].
Qed.

Lemma createParcel_returns env dto c :
  valid (dto_senderId dto) = true ->
  valid (dto_receiverId dto) = true ->
  fresh_tracking env c ->
  exists p, createParcel sys env dto c = (Ok p, c ++ [p]).
Proof.
  intros Hs Hr Hf. eexists.
  unfold createParcel, bind, lift, ObjectId_new, Parcel_create.
  rewrite Hs, Hr. red in Hf. rewrite Hf. reflexivity.
Qed.

(** C5.  For a valid creation input (sender and receiver identifiers the
    driver accepts, a tracking code not in use) [createParcel] returns a
    parcel with status "Created" and exactly one log entry, whose status is
    "Created", whose [updatedBy] is the sender's identifier and whose note
    is the caller's note when one was given (present and not empty) and
    "Parcel created" otherwise. *)
Theorem create_initial_state env dto c :
  valid (dto_senderId dto) = true ->
  valid (dto_receiverId dto) = true ->
  fresh_tracking env c ->
  exists p l,
    createParcel sys env dto c = (Ok p, c ++ [p]) /\
    status p = "Created" /\
    statusLogs p = [l] /\
    log_status l = "Created" /\
    log_updatedBy l = Some (ObjectId_of sys (dto_senderId dto)) /\
    (forall n, dto_note dto = Some n -> n <> "" -> log_note l = Some n) /\
    (dto_note dto = None \/ dto_note dto = Some "" ->
     log_note l = Some "Parcel created").
Proof.
  intros Hs Hr Hf.
  destruct (createParcel_returns env dto c Hs Hr Hf) as (p & H).
  exists p. destruct (createParcel_Ok_inv env dto c p _ H) as [_ E].
  eexists. split; [exact H|]. rewrite E. simpl. repeat split.
  - intros n Hn Hne. unfold or_default.
    assert (truthy (dto_note dto) = Some n) as -> by (apply truthy_Some; auto).
    reflexivity.
  - intros H0. apply truthy_None in H0. unfold or_default. rewrite H0. reflexivity.
Qed.

Lemma stored_none (id : ObjectId) (c : Collection) :
  (forall p, In p c -> _id p <> id) -> stored id c = None.
Proof.
  induction c as [|d c IH]; intros H; [reflexivity|].
  unfold stored in *. simpl.
  assert (ObjectId_eqb (_id d) id = false) as ->
      by (apply ObjectId_eqb_neq; apply H; left; reflexivity).
  apply IH. intros p Hp. apply H. right. exact Hp.
Qed.

(** C8.  [getParcelById] reports not-found both for an identifier that is
    not in a valid format and for a valid one that matches no stored parcel:
    the caller gets the same result, [null], and nothing is changed.  The
    match is between identifiers, not between their spellings: a valid
    string finds the stored parcel whose identifier is the one the driver
    reads from it, and then the call returns that parcel, populated. *)
Theorem findById_not_found id c :
  (valid id = false \/ (forall p, In p c -> _id p <> ObjectId_of sys id) ->
   getParcelById sys id c = (NotFound, c)) /\
  (forall p, valid id = true -> In p c -> _id p = ObjectId_of sys id ->
   exists q, getParcelById sys id c = (Ok (Some (populate sys q)), c) /\
             In q c /\ _id q = ObjectId_of sys id).
Proof.
  split.
  - intros H. rewrite getParcelById_eq. destruct H as [-> | H]; [reflexivity|].
    rewrite (stored_none _ _ H). destruct (valid id); reflexivity.
  - intros p Hv Hin Hid. rewrite getParcelById_eq, Hv.
    destruct (stored (ObjectId_of sys id) c) as [q|] eqn:E.
    + exists q. split; [reflexivity|].
      split; [exact (stored_In _ _ _ E) | exact (stored_id _ _ _ E)].
    + exfalso. unfold stored in E. apply (find_none _ _ E) in Hin.
      rewrite Hid, ObjectId_eqb_refl in Hin. discriminate.
Qed.

End Lifecycle.

(** ** Sequences of operations *)

Lemma stored_app (id : ObjectId) (c : Collection) (q p : Parcel) :
  stored id c = Some p -> stored id (c ++ [q]) = Some p.
Proof.
  unfold stored. induction c as [|d c IH]; simpl; [discriminate|].
  destruct (ObjectId_eqb (_id d) id); auto.
Qed.

Section Sequences.

Variable sys : Setting.

Local Abbreviation valid := (ObjectId_isValid sys).

Lemma acting_user_cases (u : option string) :
  acting_user_ok valid u \/ exists s, truthy u = Some s /\ valid s = false.
Proof.
  destruct (truthy u) as [s|] eqn:E.
  - destruct (valid s) eqn:V.
    + left. intros s' H. rewrite E in H. injection H as <-. exact V.
    + right. eauto.
  - left. intros s' H. rewrite E in H. discriminate.
Qed.

Lemma existing_cases (id : string) (c : Collection) :
  (valid id = false \/ stored (ObjectId_of sys id) c = None) \/
  exists p, valid id = true /\ stored (ObjectId_of sys id) c = Some p.
Proof.
  destruct (valid id); [|auto].
  destruct (stored (ObjectId_of sys id) c) as [p|]; eauto.
Qed.

Lemma run_outcome (op : Op) (c : Collection) :
  Outcome c (fst (run sys op c)) (snd (run sys op c)).
Proof.
  destruct op as [env dto | env id st by_ note | env id user]; unfold run, bind.
  - idtac.
    destruct (createParcel sys env dto c) as [[p|e] c'] eqn:E; simpl.
    + apply createParcel_Ok_inv in E. destruct E as [-> E].
      eapply Inserted_outcome; rewrite E; reflexivity.
    + apply createParcel_not_Ok in E. subst. constructor.
  - destruct (existing_cases id c) as [Ha | (p & Hv & Hs)].
    + rewrite (updateParcelStatus_absent sys env id st by_ note c Ha). simpl. constructor.
    + destruct (acting_user_cases by_) as [Hu | (s & Ht & Hb)].
      * destruct (updateParcelStatus_found sys env id st by_ note c p Hv Hs Hu)
          as (c' & -> & Hr).
        simpl. eapply Replaced_outcome; [| | | exact Hr]; simpl;
          [exact (eq_trans (f_equal (fun i => stored i c) (stored_id _ _ _ Hs)) Hs)
          | reflexivity | reflexivity].
      * rewrite (updateParcelStatus_bad_user sys env id st by_ note c p s Hv Hs Ht Hb).
        simpl. constructor.
  - destruct (existing_cases id c) as [Ha | (p & Hv & Hs)].
    + rewrite (cancelParcel_absent sys env id user c Ha). simpl. constructor.
    + destruct (includes after_dispatch (status p)) eqn:Hg.
      * rewrite (cancelParcel_refused sys env id user c p Hv Hs Hg). simpl. constructor.
      * destruct (acting_user_cases user) as [Hu | (s & Ht & Hb)].
        -- destruct (cancelParcel_found sys env id user c p Hv Hs Hg Hu)
             as (c' & -> & Hr).
           simpl. eapply Replaced_outcome; [| | | exact Hr]; simpl;
             [exact (eq_trans (f_equal (fun i => stored i c) (stored_id _ _ _ Hs)) Hs)
             | reflexivity | reflexivity].
        -- rewrite (cancelParcel_bad_user sys env id user c p s Hv Hs Hg Ht Hb).
           simpl. constructor.
Qed.

(** C2.  The parcel a successful create, status update or cancellation
    returns has a non-empty log whose last entry records the parcel's
    status, and it is that state which is stored; hence every parcel of a
    collection built by these operations keeps the property. *)
Theorem status_is_last_log op c p c' :
  run sys op c = (Ok (Some p), c') ->
  log_tracks_status p /\ In p c' /\
  (Forall log_tracks_status c -> Forall log_tracks_status c').
Proof.
  intros H. pose proof (run_outcome op c) as O. rewrite H in O. simpl in O.
  inversion O as [ | | q l Hl Hst | p0 q l c2 Hs Hl Hst Hr]; subst.
  - repeat split.
    + exists [], l. auto.
    + apply in_or_app. right. left. reflexivity.
    + intros F. apply Forall_app. split; [exact F|].
      constructor; [|constructor]. exists [], l. auto.
  - destruct (replace_doc_stored p0 p c Hs) as (c3 & Hr3 & _ & _ & Hin & Hfrom).
    rewrite Hr in Hr3. injection Hr3 as <-.
    assert (Hp : log_tracks_status p) by (exists (statusLogs p0), l; auto).
    repeat split; [exact Hp | exact Hin |].
    intros F. apply Forall_forall. intros x Hx.
    destruct (Hfrom x Hx) as [-> | Hc]; [exact Hp|].
    rewrite Forall_forall in F. auto.
Qed.

(** One call keeps every stored parcel stored and only ever extends its
    log, by at most one entry. *)
Lemma run_extends_log op c id p :
  stored id c = Some p ->
  exists p' newer,
    stored id (snd (run sys op c)) = Some p' /\
    statusLogs p' = statusLogs p ++ newer /\
    length newer <= 1.
Proof.
  intros Hs. pose proof (run_outcome op c) as O.
  destruct (run sys op c) as [r c1]. simpl in *.
  inversion O as [ | | q l Hl Hst | p0 q l c2 Hs0 Hl Hst Hr]; subst.
  - exists p, []. rewrite app_nil_r. auto.
  - exists p, []. rewrite app_nil_r. auto.
  - exists p, []. rewrite app_nil_r. split; [|auto]. now apply stored_app.
  - destruct (replace_doc_stored p0 q c Hs0) as (c3 & Hr3 & Hsq & Hother & _).
    rewrite Hr in Hr3. injection Hr3 as <-.
    destruct (ObjectId_eqb id (_id q)) eqn:E.
    + apply ObjectId_eqb_eq in E. subst id.
      rewrite Hs0 in Hs. injection Hs as <-.
      exists q, [l]. auto.
    + apply ObjectId_eqb_neq in E.
      exists p, []. rewrite app_nil_r, (Hother id E). auto.
Qed.

(** C3.  Across any sequence of create, update and cancel calls a stored
    parcel stays stored and its log only grows: the earlier entries remain,
    unchanged and in place, as a prefix of the later log.  A successful call
    appends exactly one entry to its parcel (a creation starts a log of one
    entry), and a call that fails changes nothing. *)
Theorem statusLogs_append_only ops c id p :
  stored id c = Some p ->
  (exists p' newer,
     stored id (run_all sys ops c) = Some p' /\
     statusLogs p' = statusLogs p ++ newer /\
     length (statusLogs p) <= length (statusLogs p')) /\
  (forall op q c',
     run sys op c = (Ok (Some q), c') ->
     (exists l, statusLogs q = [l] /\ c' = c ++ [q]) \/
     (exists p0 l, stored (_id q) c = Some p0 /\
                   statusLogs q = statusLogs p0 ++ [l] /\
                   stored (_id q) c' = Some q /\
                   forall i, i <> _id q -> stored i c' = stored i c)) /\
  (forall op r c',
     run sys op c = (r, c') ->
     (forall q, r <> Ok (Some q)) -> c' = c).
Proof.
  intros Hs. split; [|split].
  - revert c p Hs. induction ops as [|op ops IH]; intros c p Hs; simpl.
    + exists p, []. rewrite app_nil_r. auto.
    + destruct (run_extends_log op c id p Hs) as (p1 & n1 & Hs1 & Hl1 & _).
      destruct (IH _ _ Hs1) as (p2 & n2 & Hs2 & Hl2 & _).
      exists p2, (n1 ++ n2). rewrite Hl2, Hl1, <- app_assoc.
      repeat split; auto. rewrite length_app. lia.
  - intros op q c' H. pose proof (run_outcome op c) as O. rewrite H in O. simpl in O.
    inversion O as [ | | q0 l Hl Hst | p0 q0 l c2 Hs0 Hl Hst Hr]; subst.
    + left. eauto.
    + right. destruct (replace_doc_stored p0 q c Hs0) as (c3 & Hr3 & Hsq & Hother & _).
      rewrite Hr in Hr3. injection Hr3 as <-.
      exists p0, l. auto.
  - intros op r c' H Hfail. pose proof (run_outcome op c) as O. rewrite H in O. simpl in O.
    inversion O; subst; try reflexivity; exfalso; eapply Hfail; reflexivity.
Qed.

End Sequences.

(** ** Creation requests *)

Section CreateGuards.

Variable sys : Setting.

Local Abbreviation valid := (ObjectId_isValid sys).

(** C7, as the code has it.  A creation request without an authenticated
    user (the sender) is answered 401 "Not authenticated"; one with a sender
    but without receiver, origin or destination is answered 400 "Missing
    required parcel fields"; neither creates a parcel.  [createParcel]
    itself checks no presence: given identifiers the driver accepts it stores
    the origin and destination it gets, empty or not. *)
Theorem create_handler_guards env req c :
  (absent (req_user_id req) ->
     createParcelHandler sys env req c =
     (MkResponse 401 (fail (Text "Not authenticated")), c)) /\
  (~ absent (req_user_id req) ->
   absent (body_receiverId req) \/ absent (body_origin req) \/
   absent (body_destination req) ->
     createParcelHandler sys env req c =
     (MkResponse 400 (fail (Text "Missing required parcel fields")), c)) /\
  (forall dto,
     valid (dto_senderId dto) = true -> valid (dto_receiverId dto) = true ->
     fresh_tracking env c ->
     exists p, createParcel sys env dto c = (Ok p, c ++ [p]) /\
               origin p = dto_origin dto /\ destination p = dto_destination dto).
Proof.
  unfold absent. split; [|split].
  - intros H. unfold createParcelHandler. rewrite H. reflexivity.
  - intros Hu H. unfold createParcelHandler.
    destruct (truthy (req_user_id req)) as [uid|]; [|contradiction].
    destruct H as [-> | [H | H]].
    + reflexivity.
    + rewrite H. destruct (truthy (body_receiverId req)); reflexivity.
    + rewrite H. destruct (truthy (body_receiverId req));
        destruct (truthy (body_origin req)); reflexivity.
  - intros dto Hs Hr Hf.
    destruct (createParcel_returns sys env dto c Hs Hr Hf) as (p & H).
    exists p. split; [exact H|].
    apply createParcel_Ok_inv in H. destruct H as [_ ->]. auto.
Qed.

End CreateGuards.

(** ** Listing *)

Section Listing.

Variable sys : Setting.

Local Abbreviation valid := (ObjectId_isValid sys).
Variable RegExp_compiles : string -> bool.
Variable regex_test : string -> string -> bool.
Variable Date_parse : string -> JsDate.
Variable sortDocs : string -> list Parcel -> list Parcel.

Hypothesis sortDocs_perm : forall s l, Permutation (sortDocs s l) l.

Local Abbreviation build := (buildParcelsQuery RegExp_compiles Date_parse).
Local Abbreviation list_ := (listParcels sys RegExp_compiles regex_test Date_parse sortDocs).
Local Abbreviation holds := (regex_matches sys regex_test Date_parse).

Lemma buildParcelsQuery_Ok filters c q c' :
  build filters c = (Ok q, c') ->
  c' = c /\
  q_status q = truthy (f_status filters) /\
  q_senderId q = truthy (f_senderId filters) /\
  q_receiverId q = truthy (f_receiverId filters) /\
  q_trackingId q = truthy (f_trackingId filters) /\
  q_or q = option_map or_of (truthy (f_q filters)) /\
  match q_createdAt q with Some k => c_gte k | None => None end
    = option_map Date_parse (truthy (f_fromDate filters)) /\
  match q_createdAt q with Some k => c_lte k | None => None end
    = option_map Date_parse (truthy (f_toDate filters)).
Proof.
  unfold buildParcelsQuery, bind, ret, lift, RegExp_new.
  destruct (truthy (f_q filters)) as [t|].
  - destruct (RegExp_compiles t); [|discriminate].
    intros H. injection H as <- <-. simpl.
    destruct (truthy (f_fromDate filters)), (truthy (f_toDate filters)); simpl; auto 10.
  - intros H. injection H as <- <-. simpl.
    destruct (truthy (f_fromDate filters)), (truthy (f_toDate filters)); simpl; auto 10.
Qed.

Lemma cast_id_matches (o : option string) (k : option ObjectId) (x : ObjectId) :
  cast_id sys (truthy o) = Ok k ->
  opt_all (fun s => ObjectId_eqb x s) k =
  opt_all (fun s => ObjectId_eqb x (ObjectId_of sys s)) (given o).
Proof.
  unfold given, cast_id. destruct (truthy o) as [s|].
  - destruct (valid s); [|discriminate]. intros H. injection H as <-. reflexivity.
  - intros H. injection H as <-. reflexivity.
Qed.

Lemma cast_date_matches (o : option string) (k : option Z) (f : Z -> bool) :
  cast_date (option_map Date_parse (truthy o)) = Ok k ->
  opt_all f k =
  opt_all (fun s => match Date_parse s with Some d => f d | None => false end) (given o).
Proof.
  unfold given, cast_date. destruct (truthy o) as [s|]; simpl.
  - destruct (Date_parse s); [|discriminate]. intros H. injection H as <-. reflexivity.
  - intros H. injection H as <-. reflexivity.
Qed.

(** A stored parcel satisfies the query built from the filters exactly when
    it passes every given predicate, the free-text term read as a regular
    expression. *)
Lemma matches_built filters c q c' k p :
  build filters c = (Ok q, c') ->
  castQuery sys q = Ok k ->
  matches regex_test k p = holds filters p.
Proof.
  intros Hb Hc. apply buildParcelsQuery_Ok in Hb.
  destruct Hb as (_ & Hst & Hse & Hre & Htr & Hor & Hg & Hl).
  unfold castQuery in Hc. rewrite Hse, Hre, Hg, Hl in Hc.
  destruct (cast_id sys (truthy (f_senderId filters))) as [ks|] eqn:Es; [|discriminate].
  destruct (cast_id sys (truthy (f_receiverId filters))) as [kr|] eqn:Er; [|discriminate].
  destruct (cast_date (option_map Date_parse (truthy (f_fromDate filters))))
    as [kg|] eqn:Eg; [|discriminate].
  destruct (cast_date (option_map Date_parse (truthy (f_toDate filters))))
    as [kl|] eqn:El; [|discriminate].
  injection Hc as <-.
  unfold matches, regex_matches, exact_and_dates, text_regex.
  cbn [k_status k_senderId k_receiverId k_trackingId k_or k_gte k_lte].
  rewrite Hst, Htr, Hor.
  rewrite (cast_id_matches _ _ (senderId p) Es), (cast_id_matches _ _ (receiverId p) Er).
  rewrite (cast_date_matches _ _ (fun d => (d <=? createdAt p)%Z) Eg).
  rewrite (cast_date_matches _ _ (fun d => (createdAt p <=? d)%Z) El).
  unfold date_from, date_to, given.
  assert (Ht : opt_all (existsb (fun fr => regex_test (source (snd fr)) (field_of (fst fr) p)))
                       (option_map or_of (truthy (f_q filters)))
               = opt_all (fun t => regex_test t (origin p) || regex_test t (destination p)
                                   || regex_test t (trackingId p))
                         (truthy (f_q filters))).
  { destruct (truthy (f_q filters)) as [t|]; simpl; [|reflexivity].
    rewrite orb_false_r, orb_assoc. reflexivity. }
  rewrite Ht.
  repeat match goal with |- context [opt_all ?f ?o] =>
    let b := fresh "b" in generalize (opt_all f o); intro b end.
  destruct b, b0, b1, b2, b3, b4, b5; reflexivity.
Qed.

Lemma listParcels_Ok filters page limit sort c items total c' :
  list_ filters page limit sort c = (Ok (items, total), c') ->
  exists q k,
    build filters c = (Ok q, c) /\
    castQuery sys q = Ok k /\
    c' = c /\
    items = map (populate sys)
              (take_limit limit
                 (skipn (Z.to_nat ((page - 1) * limit))
                        (sortDocs sort (filter (matches regex_test k) c)))) /\
    total = length (filter (matches regex_test k) c).
Proof.
  unfold listParcels, bind.
  destruct (build filters c) as [[q|e] c1] eqn:Eb; [|discriminate].
  destruct (buildParcelsQuery_Ok _ _ _ _ Eb) as [-> _].
  unfold Parcel_find, Parcel_countDocuments, ret.
  destruct (castQuery sys q) as [k|e] eqn:Ec; [|discriminate].
  destruct ((page - 1) * limit <? 0)%Z; [discriminate|].
  intros H. injection H as <- <- <-. exists q, k. auto.
Qed.

Lemma In_take_limit limit l p : In p (take_limit limit l) -> In p l.
Proof.
  unfold take_limit. destruct (limit =? 0)%Z; [auto|].
  intros H. rewrite <- (firstn_skipn (Z.to_nat (Z.abs limit)) l).
  apply in_or_app. auto.
Qed.

Lemma In_skipn {A} n (l : list A) p : In p (skipn n l) -> In p l.
Proof.
  intros H. rewrite <- (firstn_skipn n l). apply in_or_app. auto.
Qed.

(** C6, as the code has it.  The listing returns only stored parcels that
    pass every given predicate (a predicate is given when its key is present
    and not empty): exact match on status and tracking code, and on sender
    and receiver as identifiers (the filter's string is cast to the
    identifier it spells, in upper or lower case, before the comparison);
    the free-text term, read as a case-insensitive regular expression,
    found in the origin, the destination or the tracking code; creation time
    within the inclusive bounds.  The total is the number of all stored
    parcels that pass, whatever the page, the limit and the order.  When the
    term has no special character the regular expression is the
    case-insensitive substring test. *)
Theorem list_filters_and_counts filters page limit sort c items total c' :
  list_ filters page limit sort c = (Ok (items, total), c') ->
  c' = c /\
  (forall d, In d items -> In (doc d) c /\ holds filters (doc d) = true) /\
  total = length (filter (holds filters) c) /\
  (forall page' limit' sort' items' total' c'',
     list_ filters page' limit' sort' c = (Ok (items', total'), c'') ->
     total' = total) /\
  (literal_law regex_test ->
   (forall t, given (f_q filters) = Some t -> meta_free t = true) ->
   forall p, holds filters p = spec_matches sys Date_parse filters p).
Proof.
  intros H. destruct (listParcels_Ok _ _ _ _ _ _ _ _ H)
    as (q & k & Hb & Hc & -> & Hi & Ht).
  assert (Hf : filter (matches regex_test k) c = filter (holds filters) c).
  { apply filter_ext. intros p. apply (matches_built _ _ _ _ _ p Hb Hc). }
  split; [reflexivity|]. split; [|split; [|split]].
  - intros d Hd. rewrite Hi in Hd. apply in_map_iff in Hd.
    destruct Hd as (p & <- & Hp). cbn [populate doc].
    apply In_take_limit, In_skipn in Hp.
    apply (Permutation_in _ (sortDocs_perm sort _)) in Hp.
    rewrite Hf in Hp. apply filter_In in Hp. exact Hp.
  - rewrite Ht, Hf. reflexivity.
  - intros page' limit' sort' items' total' c'' H'.
    destruct (listParcels_Ok _ _ _ _ _ _ _ _ H')
      as (q' & k' & Hb' & Hc' & _ & _ & Ht').
    rewrite Hb in Hb'. injection Hb' as <-.
    rewrite Hc in Hc'. injection Hc' as <-. congruence.
  - intros Hlaw Hfree p. unfold regex_matches, spec_matches. f_equal.
    unfold text_regex, text_substring.
    destruct (given (f_q filters)) as [t|] eqn:E; simpl; [|reflexivity].
    rewrite !(Hlaw t _ (Hfree t eq_refl)). reflexivity.
Qed.

Lemma cast_id_returns (o : option string) :
  (forall s, given o = Some s -> valid s = true) ->
  exists k, cast_id sys (truthy o) = Ok k.
Proof.
  unfold given, cast_id. intros H. destruct (truthy o) as [s|]; [|eauto].
  rewrite (H s eq_refl). eauto.
Qed.

Lemma cast_date_returns (o : option string) :
  (forall s, given o = Some s -> Date_parse s <> None) ->
  exists k, cast_date (option_map Date_parse (truthy o)) = Ok k.
Proof.
  unfold given, cast_date. intros H. destruct (truthy o) as [s|]; simpl; [|eauto].
  specialize (H s eq_refl). destruct (Date_parse s); [eauto | contradiction].
Qed.

(** The listing does return: when the term compiles, the given identifiers
    and dates can be cast and the skip is not negative. *)
Lemma listParcels_returns filters page limit sort c :
  (forall t, given (f_q filters) = Some t -> RegExp_compiles t = true) ->
  (forall s, given (f_senderId filters) = Some s -> valid s = true) ->
  (forall s, given (f_receiverId filters) = Some s -> valid s = true) ->
  (forall s, given (f_fromDate filters) = Some s -> Date_parse s <> None) ->
  (forall s, given (f_toDate filters) = Some s -> Date_parse s <> None) ->
  (0 <= (page - 1) * limit)%Z ->
  exists items total,
    list_ filters page limit sort c = (Ok (items, total), c).
Proof.
  intros Hq Hs Hr Hf Ht Hskip.
  assert (Hb : exists q, build filters c = (Ok q, c)).
  { unfold buildParcelsQuery, bind, lift, ret, RegExp_new. unfold given in Hq.
    destruct (truthy (f_q filters)) as [t|]; [rewrite (Hq t eq_refl)|]; eauto. }
  destruct Hb as (q & Hb).
  destruct (buildParcelsQuery_Ok _ _ _ _ Hb) as (_ & _ & Hse & Hre & _ & _ & Hg & Hl).
  destruct (cast_id_returns _ Hs) as (ks & Es).
  destruct (cast_id_returns _ Hr) as (kr & Er).
  destruct (cast_date_returns _ Hf) as (kg & Eg).
  destruct (cast_date_returns _ Ht) as (kl & El).
  assert (Hc : exists k, castQuery sys q = Ok k).
  { unfold castQuery. rewrite Hse, Hre, Hg, Hl, Es, Er, Eg, El. eauto. }
  destruct Hc as (k & Hc).
  unfold listParcels, bind. rewrite Hb.
  unfold Parcel_find, Parcel_countDocuments, ret. rewrite Hc.
  assert (((page - 1) * limit <? 0)%Z = false) as -> by (apply Z.ltb_ge; exact Hskip).
  eauto.
Qed.

End Listing.

(** ** The sample instances obey what the sections assume *)

Lemma meta_not_dot (a : ascii) : is_meta a = false -> Ascii.eqb a "."%char = false.
Proof.
  intros H. destruct (Ascii.eqb a "."%char) eqn:E; [|reflexivity].
  apply Ascii.eqb_eq in E. subst a. discriminate H.
Qed.

Lemma dot_prefix_literal (t s : string) :
  meta_free t = true -> dot_prefix t s = prefix_ci t s.
Proof.
  revert s. induction t as [|a t IH]; intros s H; [reflexivity|].
  simpl in H. apply andb_true_iff in H. destruct H as [Ha Ht].
  apply negb_true_iff in Ha.
  destruct s as [|b s]; [reflexivity|]. simpl.
  unfold dot_char. rewrite (meta_not_dot a Ha), (IH s Ht). reflexivity.
Qed.

Lemma dot_test_literal : literal_law dot_test.
Proof.
  intros t s H. induction s as [|b s IH]; simpl.
  - rewrite (dot_prefix_literal t _ H). reflexivity.
  - rewrite (dot_prefix_literal t _ H), IH. reflexivity.
Qed.

Lemma insert_newest_perm (p : Parcel) (l : list Parcel) :
  Permutation (insert_newest p l) (p :: l).
Proof.
  induction l as [|q l IH]; simpl; [apply Permutation_refl|].
  destruct (createdAt q <=? createdAt p)%Z; [apply Permutation_refl|].
  apply perm_trans with (q :: p :: l); [apply perm_skip, IH | apply perm_swap].
Qed.

Lemma newest_first_perm (s : string) (l : list Parcel) :
  Permutation (newest_first s l) l.
Proof.
  unfold newest_first. induction l as [|p l IH]; simpl; [constructor|].
  apply perm_trans with (p :: fold_right insert_newest [] l);
    [apply insert_newest_perm | apply perm_skip, IH].
Qed.

Lemma acting_user_none (valid : string -> bool) : acting_user_ok valid None.
Proof. intros s H. discriminate H. Qed.

Lemma acting_user_hex : acting_user_ok hex24 (Some id_s).
Proof. intros s H. vm_compute in H. injection H as <-. reflexivity. Qed.

(** ** The scenarios of the specification, run *)

Example scenario_create :
  createParcel sys0 env0 dto0 [] = (Ok created0, [created0]).
Proof. reflexivity. Qed.

Example scenario_dispatch_then_cancel :
  updateParcelStatus sys0 env1 id_a "Dispatched" (Some id_s) None [created0]
    = (Ok (Some (populate sys0 dispatched0)), [dispatched0]) /\
  length (statusLogs dispatched0) = 2 /\
  cancelParcel sys0 env1 id_a (Some id_s) [dispatched0]
    = (Throw IllegalTransitionError, [dispatched0]).
Proof. repeat split. Qed.

Example scenario_cancel_at_once :
  cancelParcel sys0 env1 id_a None [created0]
    = (Ok (Some (populate sys0 cancelled0)), [cancelled0]) /\
  status cancelled0 = "Cancelled" /\
  map log_note (statusLogs cancelled0) = [Some "Parcel created"; Some "Cancelled by user"].
Proof. repeat split. Qed.

Example scenario_query :
  list0 filters_dispatched 1%Z 10%Z "-createdAt" three_parcels
    = (Ok (map (populate sys0) [parcel_b], 1), three_parcels).
Proof. reflexivity. Qed.

Example scenario_newest_first :
  list0 no_filters 1%Z 2%Z "-createdAt" three_parcels
    = (Ok (map (populate sys0) [parcel_c; parcel_b], 3), three_parcels).
Proof. reflexivity. Qed.

(** An identifier the driver rejects stops the creation. *)
Example scenario_malformed_sender :
  createParcel sys0 env0 (MkDTO "S1" id_r "Lagos" "Abuja" None None None) []
    = (Throw BSONError, []).
Proof. reflexivity. Qed.

(** A plain term is found whatever its case. *)
Example scenario_plain_term :
  list0 filters_plain 1%Z 10%Z "-createdAt" three_parcels
    = (Ok (map (populate sys0) [created0], 1), three_parcels).
Proof. reflexivity. Qed.

(** The handlers pass a status outside the lifecycle on, and turn the
    refusal to cancel into a 400 with the error's text. *)
Example scenario_handlers :
  fst (updateStatusHandler sys0 env1
         (MkRequest (Some id_s) (Some id_a) None None None None None None
                    (Some "Lost at sea"))
         [created0])
    = MkResponse 200
        (success_populated
           (populate sys0
              (push_statusLog (set_status created0 "Lost at sea")
                 (update_entry sys0 env1 "Lost at sea" (Some id_s) None)))) /\
  cancelParcelHandler sys0 env1
     (MkRequest (Some id_s) (Some id_a) None None None None None None None)
     [dispatched0]
    = (MkResponse 400 (fail (Text "Cannot cancel parcel after dispatch")), [dispatched0]).
Proof. split; reflexivity. Qed.

(** The single dot finds a parcel none of whose fields contains a dot. *)
Example scenario_dot :
  list0 filters_dot 1%Z 10%Z "-createdAt" [created0]
    = (Ok (map (populate sys0) [created0], 1), [created0]) /\
  spec_matches sys0 sample_dates filters_dot created0 = false.
Proof. split; reflexivity. Qed.

(** ** The claims at concrete inputs *)

Lemma cancel_guard_witness :
  cancelParcel sys0 env1 id_a None [dispatched0]
    = (Throw IllegalTransitionError, [dispatched0]) /\
  exists p' c' l,
    cancelParcel sys0 env1 id_a (Some id_s) [created0] = (Ok (Some (populate sys0 p')), c') /\
    stored (ObjectId_of sys0 id_a) c' = Some p' /\
    status p' = "Cancelled" /\
    statusLogs p' = statusLogs created0 ++ [l] /\
    log_status l = "Cancelled" /\
    log_note l = Some "Cancelled by user" /\
    updatedBy_iff_supplied sys0 l (Some id_s).
Proof.
  split.
  - apply (cancel_guard sys0 env1 id_a None [dispatched0] dispatched0);
      [reflexivity | reflexivity | simpl; auto].
  - apply (cancel_guard sys0 env1 id_a (Some id_s) [created0] created0);
      [reflexivity | reflexivity | | exact acting_user_hex].
    simpl. intros [H | [H | [H | H]]]; try discriminate H. exact H.
Defined.

Lemma status_is_last_log_witness :
  log_tracks_status cancelled0 /\ In cancelled0 [cancelled0] /\
  (Forall log_tracks_status [created0] -> Forall log_tracks_status [cancelled0]).
Proof.
  apply (status_is_last_log sys0 (OpCancel env1 id_a None) [created0]
                            cancelled0 [cancelled0]).
  reflexivity.
Defined.

Lemma statusLogs_append_only_witness :
  exists p' newer,
    stored (oid id_a) (run_all sys0 ops0 [created0]) = Some p' /\
    statusLogs p' = statusLogs created0 ++ newer /\
    length (statusLogs created0) <= length (statusLogs p').
Proof.
  apply (statusLogs_append_only sys0 ops0 [created0] (oid id_a) created0).
  reflexivity.
Defined.

Lemma updateStatus_sets_and_logs_witness :
  (exists p' c' l,
     updateParcelStatus sys0 env1 id_a "Dispatched" (Some id_s) None [created0]
       = (Ok (Some (populate sys0 p')), c') /\
     stored (ObjectId_of sys0 id_a) c' = Some p' /\
     status p' = "Dispatched" /\
     statusLogs p' = statusLogs created0 ++ [l] /\
     log_status l = "Dispatched" /\
     log_timestamp l = env_now env1 /\
     log_note l = None /\
     updatedBy_iff_supplied sys0 l (Some id_s)) /\
  updateParcelStatus sys0 env1 id_b "Dispatched" (Some id_s) None [created0]
    = (NotFound, [created0]) /\
  (exists p' c' l,
     updateParcelStatus sys0 env1 id_A "Dispatched" (Some id_s) None [created0]
       = (Ok (Some (populate sys0 p')), c') /\
     stored (ObjectId_of sys0 id_A) c' = Some p' /\
     status p' = "Dispatched" /\
     statusLogs p' = statusLogs created0 ++ [l] /\
     log_status l = "Dispatched" /\
     log_timestamp l = env_now env1 /\
     log_note l = None /\
     updatedBy_iff_supplied sys0 l (Some id_s)).
Proof.
  destruct (updateStatus_sets_and_logs sys0 env1 id_a "Dispatched" (Some id_s) None
              [created0] acting_user_hex) as [H _].
  destruct (updateStatus_sets_and_logs sys0 env1 id_b "Dispatched" (Some id_s) None
              [created0] acting_user_hex) as [_ H'].
  destruct (updateStatus_sets_and_logs sys0 env1 id_A "Dispatched" (Some id_s) None
              [created0] acting_user_hex) as [HA _].
  split; [|split].
  - apply (H created0); reflexivity.
  - apply H'. right. reflexivity.
  - apply (HA created0); reflexivity.
Defined.

Lemma create_initial_state_witness :
  exists p l,
    createParcel sys0 env0 dto0 [] = (Ok p, [] ++ [p]) /\
    status p = "Created" /\
    statusLogs p = [l] /\
    log_status l = "Created" /\
    log_updatedBy l = Some (ObjectId_of sys0 id_s) /\
    (forall n, dto_note dto0 = Some n -> n <> "" -> log_note l = Some n) /\
    (dto_note dto0 = None \/ dto_note dto0 = Some "" ->
     log_note l = Some "Parcel created").
Proof.
  apply (create_initial_state sys0 env0 dto0 []); reflexivity.
Defined.

Lemma list_filters_and_counts_witness :
  (forall d, In d (map (populate sys0) [created0]) ->
     In (doc d) three_parcels /\
     regex_matches sys0 dot_test sample_dates filters_plain (doc d) = true) /\
  1 = length (filter (regex_matches sys0 dot_test sample_dates filters_plain)
                     three_parcels) /\
  (forall p, regex_matches sys0 dot_test sample_dates filters_plain p
             = spec_matches sys0 sample_dates filters_plain p) /\
  (forall d, In d [populated0] ->
     In (doc d) [created0; parcel_d] /\
     regex_matches sys0 dot_test sample_dates filters_sender_upper (doc d) = true) /\
  1 = length (filter (regex_matches sys0 dot_test sample_dates filters_sender_upper)
                     [created0; parcel_d]).
Proof.
  destruct (list_filters_and_counts sys0 dot_compiles dot_test sample_dates
              newest_first newest_first_perm filters_plain 1%Z 10%Z "-createdAt"
              three_parcels (map (populate sys0) [created0]) 1 three_parcels eq_refl)
    as (_ & H1 & H2 & _ & H3).
  destruct (list_filters_and_counts sys0 dot_compiles dot_test sample_dates
              newest_first newest_first_perm filters_sender_upper 1%Z 10%Z "-createdAt"
              [created0; parcel_d] [populated0] 1 [created0; parcel_d] eq_refl)
    as (_ & U1 & U2 & _).
  split; [exact H1 | split; [exact H2 | split; [| split; [exact U1 | exact U2]]]].
  apply (H3 dot_test_literal). intros t H. injection H as <-. reflexivity.
Defined.

Lemma create_handler_guards_witness :
  createParcelHandler sys0 env0 req_anonymous []
    = (MkResponse 401 (fail (Text "Not authenticated")), []).
Proof.
  apply (create_handler_guards sys0 env0 req_anonymous []). reflexivity.
Defined.

Lemma findById_not_found_witness :
  getParcelById sys0 "S1" [created0] = (NotFound, [created0]) /\
  getParcelById sys0 id_b [created0] = (NotFound, [created0]) /\
  (exists q, getParcelById sys0 id_A [created0]
               = (Ok (Some (populate sys0 q)), [created0]) /\
             In q [created0] /\ _id q = ObjectId_of sys0 id_A).
Proof.
  split; [|split].
  - apply (findById_not_found sys0 "S1" [created0]). left. reflexivity.
  - apply (findById_not_found sys0 id_b [created0]). right.
    intros p [<- | []]. discriminate.
  - apply (findById_not_found sys0 id_A [created0]) with (p := created0);
      [reflexivity | left; reflexivity | reflexivity].
Defined.

Lemma cancel_twice_grows_log_witness :
  (exists p' c' l,
     cancelParcel sys0 env1 id_a (Some id_s) [cancelled0]
       = (Ok (Some (populate sys0 p')), c') /\
     stored (ObjectId_of sys0 id_a) c' = Some p' /\
     status p' = "Cancelled" /\
     statusLogs p' = statusLogs cancelled0 ++ [l] /\
     log_status l = "Cancelled" /\
     log_note l = Some "Cancelled by user") /\
  (exists pn,
     stored (ObjectId_of sys0 id_a) (cancel_times sys0 3 env1 id_a (Some id_s) [cancelled0])
       = Some pn /\
     status pn = "Cancelled" /\
     length (statusLogs pn) = length (statusLogs cancelled0) + 3).
Proof.
  destruct (cancel_twice_grows_log sys0 env1 id_a (Some id_s) [cancelled0] cancelled0
              eq_refl eq_refl eq_refl acting_user_hex) as [H1 H2].
  split; [exact H1 | exact (H2 3)].
Defined.

Lemma updateStatus_any_string_witness :
  exists p' c' l,
    updateParcelStatus sys0 env1 id_a "Lost at sea" None None [created0]
      = (Ok (Some (populate sys0 p')), c') /\
    stored (ObjectId_of sys0 id_a) c' = Some p' /\
    status p' = "Lost at sea" /\
    statusLogs p' = statusLogs created0 ++ [l] /\
    log_status l = "Lost at sea".
Proof.
  apply (updateStatus_any_string sys0 env1 id_a "Lost at sea" None None
                                 [created0] created0);
    [reflexivity | reflexivity | apply acting_user_none].
Defined.

(** ** Where the specification's wording fails *)

(** C6.  The term ["."] finds the parcel from Lagos to Abuja, none of whose
    fields contains a dot: the listing does not filter by substring. *)
Lemma substring_claim_fails :
  ~ query_filters_by_substring sys0 dot_compiles dot_test sample_dates newest_first.
Proof.
  intros H.
  destruct (H filters_dot 1%Z 10%Z "-createdAt" [created0]
              (map (populate sys0) [created0]) 1 [created0] eq_refl) as [H1 _].
  specialize (H1 (populate sys0 created0) (or_introl eq_refl)).
  vm_compute in H1. discriminate H1.
Qed.

(** C7.  A creation request with a complete body and no authenticated user
    lacks its sender and is answered 401, not with a validation error. *)
Lemma create_without_sender_is_401 :
  ~ create_validates_presence sys0.
Proof.
  intros H.
  destruct (H env0 req_anonymous [] (or_introl eq_refl)) as [H1 _].
  vm_compute in H1. discriminate H1.
Qed.

(** ** Further properties of the service *)

Lemma find_app_last {A} (f : A -> bool) (l : list A) (x : A) :
  find f l = None -> find f (l ++ [x]) = find f [x].
Proof.
  induction l as [|a l IH]; simpl; [reflexivity|].
  destruct (f a); [discriminate | exact IH].
Qed.

Lemma existsb_find_none {A} (f : A -> bool) (l : list A) :
  existsb f l = false -> find f l = None.
Proof.
  induction l as [|a l IH]; simpl; [reflexivity|].
  destruct (f a); [discriminate | exact IH].
Qed.

Lemma replace_doc_length (q : Parcel) (c c' : Collection) :
  replace_doc q c = Some c' -> length c' = length c.
Proof.
  revert c'. induction c as [|d c IH]; simpl; intros c'; [discriminate|].
  destruct (ObjectId_eqb (_id d) (_id q)).
  - intros H. injection H as <-. reflexivity.
  - destruct (replace_doc q c) as [c2|]; simpl; [|discriminate].
    intros H. injection H as <-. simpl. rewrite (IH c2 eq_refl). reflexivity.
Qed.

Section MoreLifecycle.

Variable sys : Setting.

Local Abbreviation valid := (ObjectId_isValid sys).

Lemma run_effect (op : Op) (c : Collection) :
  Effect op c (fst (run sys op c)) (snd (run sys op c)).
Proof.
  destruct op as [env dto | env id st by_ note | env id user]; unfold run, bind.
  - idtac.
    destruct (createParcel sys env dto c) as [[p|e] c'] eqn:E; simpl.
    + apply createParcel_Ok_inv in E. destruct E as [-> _].
      now apply Effect_insert.
    + apply createParcel_not_Ok in E. subst. apply Effect_none. discriminate.
  - destruct (existing_cases sys id c) as [Ha | (p & Hv & Hs)].
    + rewrite (updateParcelStatus_absent sys env id st by_ note c Ha).
      simpl. apply Effect_none. discriminate.
    + destruct (acting_user_cases sys by_) as [Hu | (s & Ht & Hb)].
      * destruct (updateParcelStatus_found sys env id st by_ note c p Hv Hs Hu)
          as (c' & -> & Hr).
        simpl. apply Effect_replace; [reflexivity | | exact Hr].
        rewrite (stored_id _ _ _ Hs). exact Hs.
      * rewrite (updateParcelStatus_bad_user sys env id st by_ note c p s Hv Hs Ht Hb).
        simpl. apply Effect_none. discriminate.
  - destruct (existing_cases sys id c) as [Ha | (p & Hv & Hs)].
    + rewrite (cancelParcel_absent sys env id user c Ha).
      simpl. apply Effect_none. discriminate.
    + destruct (includes after_dispatch (status p)) eqn:Hg.
      * rewrite (cancelParcel_refused sys env id user c p Hv Hs Hg).
        simpl. apply Effect_none. discriminate.
      * destruct (acting_user_cases sys user) as [Hu | (s & Ht & Hb)].
        -- destruct (cancelParcel_found sys env id user c p Hv Hs Hg Hu)
             as (c' & -> & Hr).
           simpl. apply Effect_replace; [reflexivity | | exact Hr].
           rewrite (stored_id _ _ _ Hs). exact Hs.
        -- rewrite (cancelParcel_bad_user sys env id user c p s Hv Hs Hg Ht Hb).
           simpl. apply Effect_none. discriminate.
Qed.

(** X1.  Insert and look up: once [createParcel] has returned a parcel
    under a tracking code no stored parcel had, [getParcelByTrackingId] on
    that code returns the stored parcel, with the origin, destination,
    sender and receiver identifiers of the request, populated: in the place
    of the two references it carries the users registered under the request's
    sender and receiver identifiers, or null for an identifier no user has.
    [getParcelById] returns the same document when the parcel's identifier
    is one no stored parcel had and the driver reads its printed text back as
    the same identifier. *)
Theorem create_then_find env dto c p c' :
  createParcel sys env dto c = (Ok p, c') ->
  fresh_tracking env c ->
  exists d,
    getParcelByTrackingId sys (trackingId p) c' = (Ok (Some d), c') /\
    doc d = p /\
    origin (doc d) = dto_origin dto /\ destination (doc d) = dto_destination dto /\
    senderId (doc d) = ObjectId_of sys (dto_senderId dto) /\
    receiverId (doc d) = ObjectId_of sys (dto_receiverId dto) /\
    sender_user d = User_findById sys (ObjectId_of sys (dto_senderId dto)) /\
    receiver_user d = User_findById sys (ObjectId_of sys (dto_receiverId dto)) /\
    (valid (toHexString (_id p)) = true ->
     ObjectId_hex sys (toHexString (_id p)) = toHexString (_id p) ->
     stored (_id p) c = None ->
     getParcelById sys (toHexString (_id p)) c' = (Ok (Some d), c')).
Proof.
  intros H Hf. destruct (createParcel_Ok_inv sys env dto c p c' H) as [-> E].
  exists (populate sys p).
  split; [|split; [reflexivity|]].
  - unfold getParcelByTrackingId, Parcel_findOne_trackingId, bind, ret.
    rewrite find_app_last.
    + simpl. rewrite String.eqb_refl. reflexivity.
    + apply existsb_find_none. rewrite E. exact Hf.
  - cbn [populate doc sender_user receiver_user].
    repeat (split; [rewrite E; reflexivity|]).
    intros Hv Hh Hn. rewrite getParcelById_eq, Hv. unfold ObjectId_of. rewrite Hh.
    destruct (_id p) as [h] eqn:Ei. cbn [toHexString]. unfold stored in *.
    rewrite find_app_last by exact Hn.
    simpl. rewrite Ei, ObjectId_eqb_refl. reflexivity.
Qed.

Lemma push_set_identity (p : Parcel) (st : string) (l : StatusLog) :
  same_identity p (push_statusLog (set_status p st) l).
Proof. repeat split. Qed.

Lemma same_identity_refl (p : Parcel) : same_identity p p.
Proof. repeat split. Qed.

Lemma same_identity_trans (p q r : Parcel) :
  same_identity p q -> same_identity q r -> same_identity p r.
Proof.
  unfold same_identity. intros H1 H2.
  destruct H1 as (A1 & A2 & A3 & A4 & A5 & A6 & A7 & A8 & A9).
  destruct H2 as (B1 & B2 & B3 & B4 & B5 & B6 & B7 & B8 & B9).
  repeat split; congruence.
Qed.

Lemma run_keeps_identity op c id p :
  stored id c = Some p ->
  exists p', stored id (snd (run sys op c)) = Some p' /\ same_identity p p'.
Proof.
  intros Hs. pose proof (run_effect op c) as O.
  destruct (run sys op c) as [r c1]. simpl in *.
  inversion O as [r0 Hr | q Hc | p0 st l c2 Hc Hs0 Hr]; subst.
  - exists p. split; [exact Hs | apply same_identity_refl].
  - exists p. split; [now apply stored_app | apply same_identity_refl].
  - set (q := push_statusLog (set_status p0 st) l) in *.
    destruct (replace_doc_stored p0 q c Hs0) as (c3 & Hr3 & Hsq & Hother & _).
    rewrite Hr in Hr3. injection Hr3 as <-.
    destruct (ObjectId_eqb id (_id q)) eqn:E.
    + apply ObjectId_eqb_eq in E. subst id.
      change (_id q) with (_id p0) in Hs. rewrite Hs0 in Hs. injection Hs as <-.
      exists q. split; [exact Hsq | apply push_set_identity].
    + apply ObjectId_eqb_neq in E.
      exists p. rewrite (Hother id E). split; [exact Hs | apply same_identity_refl].
Qed.

(** X2.  Whatever creations, status updates and cancellations follow, a
    stored parcel keeps its identifier, tracking code, sender, receiver,
    origin, destination, weight, price and creation time: the service only
    ever assigns the status and the log. *)
Theorem identity_is_immutable ops c id p :
  stored id c = Some p ->
  exists p', stored id (run_all sys ops c) = Some p' /\ same_identity p p'.
Proof.
  revert c p. induction ops as [|op ops IH]; intros c p Hs; simpl.
  - exists p. split; [exact Hs | apply same_identity_refl].
  - destruct (run_keeps_identity op c id p Hs) as (p1 & Hs1 & I1).
    destruct (IH _ _ Hs1) as (p2 & Hs2 & I2).
    exists p2. split; [exact Hs2 | exact (same_identity_trans p p1 p2 I1 I2)].
Qed.

Lemma run_keeps_born op c :
  Forall born_created c -> Forall born_created (snd (run sys op c)).
Proof.
  intros F. pose proof (run_effect op c) as O.
  destruct op as [env dto | env id st by_ note | env id user].
  - simpl in *. unfold bind in *.
    destruct (createParcel sys env dto c) as [[p|e] c'] eqn:E; simpl in *.
    + destruct (createParcel_Ok_inv sys env dto c p c' E) as [-> Ep].
      apply Forall_app. split; [exact F|]. constructor; [|constructor].
      rewrite Ep. eexists. exists []. simpl. auto.
    + apply createParcel_not_Ok in E. subst. exact F.
  - destruct (run sys (OpUpdateStatus env id st by_ note) c) as [r c1]. simpl in *.
    inversion O as [r0 Hr | q Hc | p0 st0 l c2 Hc Hs0 Hr]; subst;
      [exact F | discriminate |].
    destruct (replace_doc_stored p0 (push_statusLog (set_status p0 st0) l) c Hs0)
      as (c3 & Hr3 & _ & _ & _ & Hfrom).
    rewrite Hr in Hr3. injection Hr3 as <-.
    apply Forall_forall. intros x Hx. rewrite Forall_forall in F.
    destruct (Hfrom x Hx) as [-> | Hin]; [|auto].
    destruct (F p0 (stored_In _ _ _ Hs0)) as (l0 & rest & H1 & H2 & H3).
    exists l0, (rest ++ [l]). simpl. rewrite H1. auto.
  - destruct (run sys (OpCancel env id user) c) as [r c1]. simpl in *.
    inversion O as [r0 Hr | q Hc | p0 st0 l c2 Hc Hs0 Hr]; subst;
      [exact F | discriminate |].
    destruct (replace_doc_stored p0 (push_statusLog (set_status p0 st0) l) c Hs0)
      as (c3 & Hr3 & _ & _ & _ & Hfrom).
    rewrite Hr in Hr3. injection Hr3 as <-.
    apply Forall_forall. intros x Hx. rewrite Forall_forall in F.
    destruct (Hfrom x Hx) as [-> | Hin]; [|auto].
    destruct (F p0 (stored_In _ _ _ Hs0)) as (l0 & rest & H1 & H2 & H3).
    exists l0, (rest ++ [l]). simpl. rewrite H1. auto.
Qed.

(** X3.  In a collection built from nothing by creations, status updates
    and cancellations, the log of every parcel still starts with its
    "Created" entry, signed by the parcel's sender. *)
Theorem first_entry_is_creation ops :
  Forall born_created (run_all sys ops []).
Proof.
  assert (G : forall c, Forall born_created c ->
                        Forall born_created (run_all sys ops c)).
  { induction ops as [|op ops IH]; intros c F; simpl; [exact F|].
    apply IH. now apply run_keeps_born. }
  apply G. constructor.
Qed.

(** X4.  No call removes a parcel: a successful creation makes the
    collection one document longer, and every other call, successful or
    not, leaves the number of stored parcels as it was. *)
Theorem only_create_adds op c :
  length (snd (run sys op c)) =
  match fst (run sys op c) with
  | Ok (Some _) => if is_create op then S (length c) else length c
  | _ => length c
  end.
Proof.
  pose proof (run_effect op c) as O.
  destruct (run sys op c) as [r c1]. simpl in *.
  inversion O as [r0 Hr | q Hc | p0 st l c2 Hc Hs0 Hr]; subst.
  - destruct r as [[q|]|e]; try reflexivity. exfalso. now apply (Hr q).
  - rewrite Hc, length_app. simpl. lia.
  - rewrite Hc. now apply replace_doc_length in Hr.
Qed.


End MoreLifecycle.

(** ** Further properties of the handlers *)

Section MoreHandlers.

Variable sys : Setting.

Local Abbreviation valid := (ObjectId_isValid sys).

Lemma run_failed_unchanged op c :
  (forall q, fst (run sys op c) <> Ok (Some q)) -> snd (run sys op c) = c.
Proof.
  intros H. pose proof (run_effect sys op c) as O.
  destruct (run sys op c) as [r c1]. simpl in *.
  inversion O; subst; try reflexivity; exfalso; eapply H; reflexivity.
Qed.

Lemma update_failed_unchanged env id st user note c r c' :
  updateParcelStatus sys env id st user note c = (r, c') ->
  (forall q, r <> Ok (Some q)) -> c' = c.
Proof.
  intros E H.
  pose proof (run_failed_unchanged (OpUpdateStatus env id st user note) c) as U.
  unfold run, bind in U. rewrite E in U.
  destruct r as [[q|]|e]; simpl in U; [exfalso; now apply (H q) | |];
    apply U; intros q'; discriminate.
Qed.

Lemma cancel_failed_unchanged env id user c r c' :
  cancelParcel sys env id user c = (r, c') ->
  (forall q, r <> Ok (Some q)) -> c' = c.
Proof.
  intros E H.
  pose proof (run_failed_unchanged (OpCancel env id user) c) as U.
  unfold run, bind in U. rewrite E in U.
  destruct r as [[q|]|e]; simpl in U; [exfalso; now apply (H q) | |];
    apply U; intros q'; discriminate.
Qed.

(** X6.  The three mutating handlers store something only when they answer
    with success: creation answers 201 or else 400 or 401, status update
    and cancellation answer 200 or else 400, 401 or 404, and with any of the
    failure codes the collection is left exactly as it was. *)
Theorem handlers_store_only_on_success env req c :
  (code (fst (createParcelHandler sys env req c)) = 201 \/
   (snd (createParcelHandler sys env req c) = c /\
    In (code (fst (createParcelHandler sys env req c))) [400; 401])) /\
  (code (fst (updateStatusHandler sys env req c)) = 200 \/
   (snd (updateStatusHandler sys env req c) = c /\
    In (code (fst (updateStatusHandler sys env req c))) [400; 401; 404])) /\
  (code (fst (cancelParcelHandler sys env req c)) = 200 \/
   (snd (cancelParcelHandler sys env req c) = c /\
    In (code (fst (cancelParcelHandler sys env req c))) [400; 401; 404])).
Proof.
  split; [|split].
  - unfold createParcelHandler.
    destruct (truthy (req_user_id req)) as [uid|]; [|right; simpl; auto].
    destruct (truthy (body_receiverId req)) as [r|]; [|right; simpl; auto].
    destruct (truthy (body_origin req)) as [o|]; [|right; simpl; auto].
    destruct (truthy (body_destination req)) as [d|]; [|right; simpl; auto].
    destruct (createParcel sys env _ c) as [[p|e] c'] eqn:E; [left; reflexivity|].
    right. apply createParcel_not_Ok in E. simpl. auto.
  - unfold updateStatusHandler.
    destruct (truthy (req_user_id req)) as [uid|]; [|right; simpl; auto].
    destruct (truthy (req_params_id req)) as [id|]; [|right; simpl; auto].
    destruct (truthy (body_status req)) as [st|]; [|right; simpl; auto].
    destruct (updateParcelStatus sys env id st (Some uid) (body_note req) c)
      as [[[p|]|e] c'] eqn:E; [left; reflexivity | |];
      right; (apply update_failed_unchanged in E; [|discriminate]); simpl; auto.
  - unfold cancelParcelHandler.
    destruct (truthy (req_user_id req)) as [uid|]; [|right; simpl; auto].
    destruct (truthy (req_params_id req)) as [id|]; [|right; simpl; auto].
    destruct (cancelParcel sys env id (Some uid) c)
      as [[[p|]|e] c'] eqn:E; [left; reflexivity | |];
      right; (apply cancel_failed_unchanged in E; [|discriminate]); simpl; auto.
Qed.

(** X7.  For an authenticated user and a parcel identifier in the route,
    [cancelParcelHandler] answers 404 "Parcel not found" when the identifier
    is malformed or is that of no stored parcel, 400 with the text "Cannot
    cancel parcel after dispatch" when the parcel is Dispatched, InTransit
    or Delivered, both without storing anything, and otherwise 200 with the
    cancelled parcel, populated, whose new log entry is signed by the
    authenticated user.  The parcel is looked up by the identifier the
    driver reads from the route's string, however the string spells it. *)
Theorem cancel_handler_answers env req c uid id :
  truthy (req_user_id req) = Some uid ->
  valid uid = true ->
  truthy (req_params_id req) = Some id ->
  (valid id = false \/ stored (ObjectId_of sys id) c = None ->
     cancelParcelHandler sys env req c =
     (MkResponse 404 (fail (Text "Parcel not found")), c)) /\
  (forall p, valid id = true -> stored (ObjectId_of sys id) c = Some p ->
     In (status p) ["Dispatched"; "InTransit"; "Delivered"] ->
     cancelParcelHandler sys env req c =
     (MkResponse 400 (fail (Text "Cannot cancel parcel after dispatch")), c)) /\
  (forall p, valid id = true -> stored (ObjectId_of sys id) c = Some p ->
     ~ In (status p) ["Dispatched"; "InTransit"; "Delivered"] ->
     exists c',
       cancelParcelHandler sys env req c =
       (MkResponse 200
          (success_populated
             (populate sys
                (push_statusLog (set_status p "Cancelled")
                   (MkStatusLog "Cancelled" (env_now env) (Some "Cancelled by user")
                                (Some (ObjectId_of sys uid)))))), c') /\
       stored (ObjectId_of sys id) c' =
         Some (push_statusLog (set_status p "Cancelled")
                 (MkStatusLog "Cancelled" (env_now env) (Some "Cancelled by user")
                              (Some (ObjectId_of sys uid))))).
Proof.
  intros Hu Hvu Hid.
  assert (Hown : truthy (Some uid) = Some uid).
  { apply truthy_Some. apply truthy_Some in Hu. destruct Hu; auto. }
  unfold cancelParcelHandler. rewrite Hu, Hid. split; [|split].
  - intros Ha. rewrite (cancelParcel_absent sys env id (Some uid) c Ha). reflexivity.
  - intros p Hv Hs Hin. apply includes_In in Hin.
    rewrite (cancelParcel_refused sys env id (Some uid) c p Hv Hs Hin). reflexivity.
  - intros p Hv Hs Hnin.
    assert (Hg : includes after_dispatch (status p) = false).
    { destruct (includes after_dispatch (status p)) eqn:E; [|reflexivity].
      apply includes_In in E. contradiction. }
    assert (Hok : acting_user_ok valid (Some uid)).
    { intros s E. rewrite Hown in E. injection E as <-. exact Hvu. }
    destruct (cancelParcel_found sys env id (Some uid) c p Hv Hs Hg Hok)
      as (c' & Hrun & Hr).
    unfold cancel_entry in *. rewrite Hown in *. simpl in *.
    exists c'. rewrite Hrun. split; [reflexivity|].
    match type of Hr with replace_doc ?q c = _ =>
      destruct (replace_doc_stored p q c) as (c2 & Hr2 & Hst & _) end.
    { simpl. rewrite (stored_id _ _ _ Hs). exact Hs. }
    rewrite Hr in Hr2. injection Hr2 as <-.
    simpl in Hst. rewrite (stored_id _ _ _ Hs) in Hst. exact Hst.
Qed.

(** X8.  [updateStatusHandler] turns away a request without authenticated
    user (401), without parcel identifier or without status, the empty
    status included (400), before it calls the service, so nothing is
    stored; and it answers 404 for a malformed identifier and for one the
    driver reads as the identifier of no stored parcel, while for one it
    reads as a stored parcel's, however spelled, and a user identifier it
    accepts, the answer is 200 with the updated parcel, populated. *)
Theorem update_handler_rejects env req c :
  (absent (req_user_id req) ->
     updateStatusHandler sys env req c =
     (MkResponse 401 (fail (Text "Not authenticated")), c)) /\
  (~ absent (req_user_id req) -> absent (req_params_id req) ->
     updateStatusHandler sys env req c =
     (MkResponse 400 (fail (Text "Missing parcel id")), c)) /\
  (~ absent (req_user_id req) -> ~ absent (req_params_id req) ->
   absent (body_status req) ->
     updateStatusHandler sys env req c =
     (MkResponse 400 (fail (Text "Missing status")), c)) /\
  (forall uid id st,
     truthy (req_user_id req) = Some uid -> truthy (req_params_id req) = Some id ->
     truthy (body_status req) = Some st ->
     valid id = false \/ stored (ObjectId_of sys id) c = None ->
     updateStatusHandler sys env req c =
     (MkResponse 404 (fail (Text "Parcel not found")), c)) /\
  (forall uid id st p,
     truthy (req_user_id req) = Some uid -> truthy (req_params_id req) = Some id ->
     truthy (body_status req) = Some st ->
     valid uid = true -> valid id = true ->
     stored (ObjectId_of sys id) c = Some p ->
     exists c',
       updateStatusHandler sys env req c =
       (MkResponse 200
          (success_populated
             (populate sys
                (push_statusLog (set_status p st)
                   (MkStatusLog st (env_now env) (body_note req)
                                (Some (ObjectId_of sys uid)))))), c')).
Proof.
  unfold absent, updateStatusHandler. split; [|split; [|split; [|split]]].
  - intros ->. reflexivity.
  - intros Hu ->. destruct (truthy (req_user_id req)); [reflexivity | contradiction].
  - intros Hu Hi ->. destruct (truthy (req_user_id req)); [|contradiction].
    destruct (truthy (req_params_id req)); [reflexivity | contradiction].
  - intros uid id st -> -> -> Ha.
    rewrite (updateParcelStatus_absent sys env id st (Some uid) (body_note req) c Ha).
    reflexivity.
  - intros uid id st p Hu Hid Hst Hvu Hv Hs.
    assert (Hown : truthy (Some uid) = Some uid).
    { apply truthy_Some. apply truthy_Some in Hu. destruct Hu; auto. }
    assert (Hok : acting_user_ok valid (Some uid)).
    { intros s E. rewrite Hown in E. injection E as <-. exact Hvu. }
    destruct (updateParcelStatus_found sys env id st (Some uid) (body_note req) c p
                Hv Hs Hok) as (c' & Hrun & _).
    exists c'. rewrite Hu, Hid, Hst, Hrun. unfold update_entry. rewrite Hown.
    reflexivity.
Qed.

End MoreHandlers.

(** X9.  [getParcelByTrackingHandler] only reads: it answers 400 when the
    route has no tracking code, 404 when no stored parcel has the code, and
    otherwise 200 with a stored parcel that has it, its sender and receiver
    populated, and the collection is the same afterwards in every case. *)
Theorem tracking_handler_answers sys param c :
  snd (getParcelByTrackingHandler sys param c) = c /\
  (absent param ->
     fst (getParcelByTrackingHandler sys param c)
     = MkReply 400 (env_fail "Missing trackingId parameter")) /\
  (forall t, truthy param = Some t ->
     (forall p, In p c -> trackingId p <> t) ->
     fst (getParcelByTrackingHandler sys param c)
     = MkReply 404 (env_fail "Parcel not found")) /\
  (forall t p, truthy param = Some t -> In p c -> trackingId p = t ->
     exists q, fst (getParcelByTrackingHandler sys param c)
               = MkReply 200 (env_success (populate sys q)) /\
               In q c /\ trackingId q = t).
Proof.
  unfold absent, getParcelByTrackingHandler, getParcelByTrackingId,
    Parcel_findOne_trackingId, bind, ret.
  repeat split.
  - destruct (truthy param) as [t|]; [|reflexivity].
    destruct (find _ c); reflexivity.
  - intros ->. reflexivity.
  - intros t -> Hnone.
    assert (find (fun p => (trackingId p =? t)%string) c = None) as ->; [|reflexivity].
    destruct (find _ c) as [q|] eqn:E; [|reflexivity].
    apply find_some in E. destruct E as [Hin E]. apply String.eqb_eq in E.
    exfalso. exact (Hnone q Hin E).
  - intros t p -> Hin Ht.
    destruct (find (fun p => (trackingId p =? t)%string) c) as [q|] eqn:E.
    + apply find_some in E. destruct E as [Hq E]. apply String.eqb_eq in E.
      exists q. auto.
    + exfalso. apply (find_none _ _ E) in Hin. rewrite Ht, String.eqb_refl in Hin.
      discriminate.
Qed.

(** ** Further properties of the listing *)

Section MoreListing.

Variable sys : Setting.

Local Abbreviation valid := (ObjectId_isValid sys).
Variable RegExp_compiles : string -> bool.
Variable regex_test : string -> string -> bool.
Variable Date_parse : string -> JsDate.
Variable sortDocs : string -> list Parcel -> list Parcel.
Variable parsePagination : QueryString -> Z * Z * string.

Hypothesis sortDocs_perm : forall s l, Permutation (sortDocs s l) l.

Local Abbreviation list_ := (listParcels sys RegExp_compiles regex_test Date_parse sortDocs).
Local Abbreviation holds := (regex_matches sys regex_test Date_parse).
Local Abbreviation handler :=
  (listParcelsHandler sys RegExp_compiles regex_test Date_parse sortDocs parsePagination).

Lemma listParcels_sorted_matches filters page limit sort c items total c' :
  list_ filters page limit sort c = (Ok (items, total), c') ->
  c' = c /\
  items = map (populate sys)
            (take_limit limit
               (skipn (Z.to_nat ((page - 1) * limit))
                      (sortDocs sort (filter (holds filters) c)))) /\
  total = length (filter (holds filters) c).
Proof.
  intros H. destruct (listParcels_Ok _ _ _ _ _ _ _ _ _ _ _ _ _ H)
    as (q & k & Hb & Hc & -> & Hi & Ht).
  assert (Hf : filter (matches regex_test k) c = filter (holds filters) c).
  { apply filter_ext. intros p.
    apply (matches_built sys RegExp_compiles regex_test Date_parse _ _ _ _ _ p Hb Hc). }
  rewrite Hf in Hi, Ht. auto.
Qed.

Lemma listParcels_items_hold filters page limit sort c items total c' :
  list_ filters page limit sort c = (Ok (items, total), c') ->
  forall d, In d items ->
    d = populate sys (doc d) /\ In (doc d) c /\ holds filters (doc d) = true.
Proof.
  intros H d Hd. destruct (listParcels_sorted_matches _ _ _ _ _ _ _ _ H) as (_ & Hi & _).
  rewrite Hi in Hd. apply in_map_iff in Hd. destruct Hd as (p & <- & Hp).
  split; [reflexivity|]. cbn [populate doc].
  apply In_take_limit, In_skipn in Hp.
  apply (Permutation_in _ (sortDocs_perm sort _)) in Hp.
  apply filter_In in Hp. exact Hp.
Qed.

(** X10.  For a page number and a limit of at least one, the items of a
    listing are the page's slice of one sequence, the matching parcels in
    the requested order: the [limit] parcels after the first
    [(page - 1) * limit], each with its sender and receiver populated.  So
    a page never holds more than [limit] parcels,
    holds exactly the smaller of [limit] and what is left of the total, and
    is empty once the pages before it have used up the total. *)
Theorem pages_are_slices filters page limit sort c items total c' :
  listParcels sys RegExp_compiles regex_test Date_parse sortDocs
              filters page limit sort c = (Ok (items, total), c') ->
  (1 <= page)%Z -> (1 <= limit)%Z ->
  items = map (populate sys)
            (firstn (Z.to_nat limit)
               (skipn (Z.to_nat (page - 1) * Z.to_nat limit)
                      (sortDocs sort
                         (filter (regex_matches sys regex_test Date_parse filters) c)))) /\
  length items <= Z.to_nat limit /\
  length items = Nat.min (Z.to_nat limit)
                         (total - Z.to_nat (page - 1) * Z.to_nat limit) /\
  (total <= Z.to_nat (page - 1) * Z.to_nat limit -> items = []).
Proof.
  intros H Hp Hl.
  destruct (listParcels_sorted_matches _ _ _ _ _ _ _ _ H) as (_ & Hi & Ht).
  unfold take_limit in Hi.
  assert ((limit =? 0)%Z = false) as E by (apply Z.eqb_neq; lia).
  rewrite E in Hi.
  replace (Z.abs limit) with limit in Hi by lia.
  replace (Z.to_nat ((page - 1) * limit))
    with (Z.to_nat (page - 1) * Z.to_nat limit) in Hi
    by (rewrite Z2Nat.inj_mul by lia; reflexivity).
  assert (Hlen : length items = Nat.min (Z.to_nat limit)
                   (total - Z.to_nat (page - 1) * Z.to_nat limit)).
  { rewrite Hi, length_map, length_firstn, length_skipn,
      (Permutation_length (sortDocs_perm sort _)), <- Ht. reflexivity. }
  repeat split; try assumption.
  - rewrite Hlen. apply Nat.le_min_l.
  - intros Hle. apply length_zero_iff_nil. rewrite Hlen. lia.
Qed.

Lemma listParcels_keeps_collection filters page limit sort c :
  snd (list_ filters page limit sort c) = c.
Proof.
  unfold listParcels, bind, buildParcelsQuery, bind, lift, ret, RegExp_new,
    Parcel_find, Parcel_countDocuments.
  destruct (truthy (f_q filters)) as [t|];
    [destruct (RegExp_compiles t); [|reflexivity]|];
    (destruct (castQuery sys _); [|reflexivity]);
    (destruct ((page - 1) * limit <? 0)%Z; reflexivity).
Qed.

(** X11.  A listing only reads: the collection is the same after it,
    whether it returned or threw; and when no filter is given the total is
    the number of stored parcels. *)
Theorem listing_only_reads filters page limit sort c :
  snd (list_ filters page limit sort c) = c /\
  (forall items total c',
     list_ filters page limit sort c = (Ok (items, total), c') ->
     given (f_status filters) = None -> given (f_senderId filters) = None ->
     given (f_receiverId filters) = None -> given (f_trackingId filters) = None ->
     given (f_q filters) = None -> given (f_fromDate filters) = None ->
     given (f_toDate filters) = None ->
     total = length c).
Proof.
  split.
  - apply listParcels_keeps_collection.
  - intros items total c' H H1 H2 H3 H4 H5 H6 H7.
    destruct (listParcels_sorted_matches _ _ _ _ _ _ _ _ H) as (_ & _ & ->).
    f_equal. rewrite <- (filter_ext (fun _ => true)).
    + clear. induction c as [|d c0 IH]; simpl; [reflexivity | now rewrite IH].
    + intros p. unfold regex_matches, exact_and_dates, text_regex.
      rewrite H1, H2, H3, H4, H5, H6, H7. reflexivity.
Qed.

(** X12.  A free-text term that [RegExp] does not compile makes the listing
    throw a syntax error, whatever the other filters, the page and the
    limit; the handler answers 500 "Server error". *)
Theorem bad_pattern_fails_listing filters page limit sort c t :
  given (f_q filters) = Some t ->
  RegExp_compiles t = false ->
  list_ filters page limit sort c = (Throw SyntaxError, c) /\
  (forall user query,
     role_filters user (qs_filters query) = filters ->
     handler user query c = (MkReply 500 (env_error "Server error"), c)).
Proof.
  unfold given. intros Hq Hc.
  assert (E : forall page limit sort,
             list_ filters page limit sort c = (Throw SyntaxError, c)).
  { intros. unfold listParcels, bind, buildParcelsQuery, bind, lift, RegExp_new.
    rewrite Hq, Hc. reflexivity. }
  split; [apply E|].
  intros user query Hf. unfold listParcelsHandler.
  destruct (parsePagination query) as [[pg lm] so]. rewrite Hf, E. reflexivity.
Qed.

(** X13.  A filter key sent empty is as good as not sent: two filter bags
    that agree on their non-empty values give the same listing. *)
Theorem empty_filter_values_are_ignored f f' page limit sort c :
  truthy (f_status f) = truthy (f_status f') ->
  truthy (f_senderId f) = truthy (f_senderId f') ->
  truthy (f_receiverId f) = truthy (f_receiverId f') ->
  truthy (f_trackingId f) = truthy (f_trackingId f') ->
  truthy (f_q f) = truthy (f_q f') ->
  truthy (f_fromDate f) = truthy (f_fromDate f') ->
  truthy (f_toDate f) = truthy (f_toDate f') ->
  list_ f page limit sort c = list_ f' page limit sort c.
Proof.
  intros H1 H2 H3 H4 H5 H6 H7.
  unfold listParcels, bind, buildParcelsQuery.
  rewrite H1, H2, H3, H4, H5, H6, H7. reflexivity.
Qed.

Lemma given_id_holds (s : string) (x : ObjectId) :
  s <> "" ->
  opt_all (fun v => ObjectId_eqb x (ObjectId_of sys v)) (given (Some s)) = true ->
  x = ObjectId_of sys s.
Proof.
  intros Hne H. unfold given in H.
  assert (truthy (Some s) = Some s) as E by (apply truthy_Some; auto).
  rewrite E in H. simpl in H. now apply ObjectId_eqb_eq in H.
Qed.

(** X14.  A user with the role "sender" is only ever shown parcels they
    sent, and one with the role "receiver" parcels addressed to them,
    whatever filters the query string carries: the handler overwrites the
    corresponding filter with the user's own identifier, which the query
    compares as an identifier, however its text is spelled.  The handler
    stores nothing. *)
Theorem roles_see_their_own_parcels u query c :
  String_of_id u <> "" ->
  snd (handler (Some u) query c) = c /\
  (fst (handler (Some u) query c) = MkReply 500 (env_error "Server error") \/
   exists items total page limit,
     fst (handler (Some u) query c) = MkReply 200 (env_page items total page limit) /\
     (auth_role u = "sender" ->
      forall d, In d items ->
        In (doc d) c /\ senderId (doc d) = ObjectId_of sys (String_of_id u)) /\
     (auth_role u = "receiver" ->
      forall d, In d items ->
        In (doc d) c /\ receiverId (doc d) = ObjectId_of sys (String_of_id u))).
Proof.
  intros Hne. unfold listParcelsHandler.
  destruct (parsePagination query) as [[page limit] sort].
  pose proof (listParcels_keeps_collection (role_filters (Some u) (qs_filters query))
                                           page limit sort c) as Hro.
  destruct (list_ (role_filters (Some u) (qs_filters query)) page limit sort c)
    as [[[items total]|e] c'] eqn:E; simpl in Hro; subst c'.
  - split; [reflexivity|]. right. exists items, total, page, limit.
    split; [reflexivity|].
    pose proof (listParcels_items_hold _ _ _ _ _ _ _ _ E) as Hall.
    split; intros Hrole d Hd; destruct (Hall d Hd) as (_ & Hin & Hh);
      (split; [exact Hin|]);
      unfold regex_matches, exact_and_dates in Hh;
      repeat (apply andb_true_iff in Hh; destruct Hh as [Hh ?]);
      unfold role_filters in *; rewrite Hrole in *; simpl in *.
    + now apply given_id_holds.
    + now apply given_id_holds.
  - split; [reflexivity|]. left. reflexivity.
Qed.

End MoreListing.

(** ** Properties of the statistics *)

Lemma obj_get_set (k k' : string) (v : nat) (o : Obj) :
  obj_get k (obj_set k' v o) = if (k' =? k)%string then Some v else obj_get k o.
Proof.
  induction o as [|[k0 v0] o IH]; simpl.
  - destruct (k' =? k)%string; reflexivity.
  - destruct (k0 =? k')%string eqn:E; simpl.
    + apply String.eqb_eq in E. subst k0. destruct (k' =? k)%string; reflexivity.
    + rewrite IH. destruct (k0 =? k)%string eqn:E2; [|reflexivity].
      apply String.eqb_eq in E2. subst k0. rewrite String.eqb_sym, E. reflexivity.
Qed.

Lemma obj_keys_set_known (k : string) (v n : nat) (o : Obj) :
  obj_get k o = Some n -> map fst (obj_set k v o) = map fst o.
Proof.
  induction o as [|[k0 v0] o IH]; simpl; [discriminate|].
  destruct (k0 =? k)%string eqn:E; simpl.
  - apply String.eqb_eq in E. subst. reflexivity.
  - intros H. rewrite (IH H). reflexivity.
Qed.

Lemma obj_keys_set (k : string) (v : nat) (o : Obj) (x : string) :
  In x (map fst (obj_set k v o)) <-> x = k \/ In x (map fst o).
Proof.
  induction o as [|[k0 v0] o IH]; simpl.
  - intuition.
  - destruct (k0 =? k)%string eqn:E; simpl.
    + apply String.eqb_eq in E. subst. intuition.
    + rewrite IH. intuition.
Qed.

Lemma obj_set_length (k : string) (v : nat) (o : Obj) :
  length (obj_set k v o) <= S (length o).
Proof.
  induction o as [|[k0 v0] o IH]; simpl; [lia|].
  destruct (k0 =? k)%string; simpl; lia.
Qed.

Lemma obj_set_NoDup (k : string) (v : nat) (o : Obj) :
  NoDup (map fst o) -> NoDup (map fst (obj_set k v o)).
Proof.
  induction o as [|[k0 v0] o IH]; simpl; intros H.
  - constructor; [auto | constructor].
  - inversion H as [|? ? Hn Hd]; subst.
    destruct (k0 =? k)%string eqn:E; simpl.
    + apply String.eqb_eq in E. subst. constructor; assumption.
    + constructor; [|auto]. rewrite obj_keys_set. intros [-> | Hin]; [|contradiction].
      rewrite String.eqb_refl in E. discriminate.
Qed.

Lemma obj_get_In (k : string) (o : Obj) :
  obj_get k o <> None <-> In k (map fst o).
Proof.
  induction o as [|[k0 v0] o IH]; simpl; [intuition|].
  destruct (k0 =? k)%string eqn:E.
  - apply String.eqb_eq in E. split; [auto | discriminate].
  - apply String.eqb_neq in E. rewrite IH. intuition.
Qed.

Lemma zero_keys (ks : list string) (o : Obj) :
  (forall k, obj_get k (fold_left (fun o k => obj_set k 0 o) ks o) =
             if existsb (String.eqb k) ks then Some 0 else obj_get k o) /\
  (forall x, In x (map fst (fold_left (fun o k => obj_set k 0 o) ks o)) <->
             In x ks \/ In x (map fst o)) /\
  length (fold_left (fun o k => obj_set k 0 o) ks o) <= length ks + length o /\
  (NoDup (map fst o) ->
   NoDup (map fst (fold_left (fun o k => obj_set k 0 o) ks o))).
Proof.
  revert o. induction ks as [|k0 ks IH]; intros o; simpl.
  - repeat split; auto; intuition.
  - destruct (IH (obj_set k0 0 o)) as (G & K & L & N). repeat split.
    + intros k. rewrite G, obj_get_set, (String.eqb_sym k k0).
      destruct (existsb (String.eqb k) ks), (k0 =? k)%string; reflexivity.
    + rewrite K, obj_keys_set. intuition.
    + rewrite K, obj_keys_set. intuition.
    + pose proof (obj_set_length k0 0 o). lia.
    + intros H. apply N, obj_set_NoDup, H.
Qed.

Lemma insert_key_perm (k : string) (l : list string) :
  Permutation (insert_key k l) (k :: l).
Proof.
  induction l as [|a l IH]; simpl; [apply Permutation_refl|].
  destruct (String.leb k a); [apply Permutation_refl|].
  apply perm_trans with (a :: k :: l); [apply perm_skip, IH | apply perm_swap].
Qed.

Lemma sort_keys_perm (l : list string) : Permutation (sort_keys l) l.
Proof.
  unfold sort_keys. induction l as [|a l IH]; simpl; [constructor|].
  apply perm_trans with (a :: fold_right insert_key [] l);
    [apply insert_key_perm | apply perm_skip, IH].
Qed.

Lemma insert_key_sorted (k : string) (l : list string) :
  Sorted (fun a b => String.leb a b = true) l ->
  Sorted (fun a b => String.leb a b = true) (insert_key k l).
Proof.
  induction l as [|a l IH]; simpl; intros H.
  - repeat constructor.
  - destruct (String.leb k a) eqn:E.
    + constructor; [exact H | constructor; exact E].
    + inversion H as [|? ? Hs Hh]; subst.
      constructor; [apply IH, Hs|].
      assert (Ha : String.leb a k = true)
        by (destruct (String.leb_total a k) as [T|T]; [exact T | congruence]).
      destruct l as [|b l]; simpl.
      * constructor. exact Ha.
      * destruct (String.leb k b); constructor; [exact Ha|].
        inversion Hh; assumption.
Qed.

Lemma sort_keys_sorted (l : list string) :
  Sorted (fun a b => String.leb a b = true) (sort_keys l).
Proof.
  unfold sort_keys. induction l as [|a l IH]; simpl; [constructor|].
  apply insert_key_sorted, IH.
Qed.

Lemma filter_length_perm {A} (f : A -> bool) (l l' : list A) :
  Permutation l l' -> length (filter f l) = length (filter f l').
Proof.
  induction 1 as [|x l l' _ IH|x y l|l l' l'' _ IH1 _ IH2]; simpl.
  - reflexivity.
  - destruct (f x); simpl; congruence.
  - destruct (f x), (f y); reflexivity.
  - congruence.
Qed.

Lemma filter_length_disjoint {A} (f g : A -> bool) (l : list A) :
  (forall x, f x && g x = false) ->
  length (filter f l) + length (filter g l) <= length l.
Proof.
  intros D. induction l as [|a l IH]; simpl; [lia|].
  specialize (D a). destruct (f a), (g a); simpl in *; try discriminate; lia.
Qed.

Lemma filter_none {A} (f : A -> bool) (l : list A) :
  (forall x, In x l -> f x = false) -> filter f l = [].
Proof.
  induction l as [|a l IH]; simpl; intros H; [reflexivity|].
  rewrite (H a (or_introl eq_refl)). apply IH. auto.
Qed.

Lemma filter_every {A} (f : A -> bool) (l : list A) :
  (forall x, In x l -> f x = true) -> filter f l = l.
Proof.
  induction l as [|a l IH]; simpl; intros H; [reflexivity|].
  rewrite (H a (or_introl eq_refl)). f_equal. apply IH. auto.
Qed.

Section MoreStats.

Variable sys : Setting.

Local Abbreviation valid := (ObjectId_isValid sys).
Variable RegExp_compiles : string -> bool.
Variable regex_test : string -> string -> bool.
Variable Date_parse : string -> JsDate.
Variable sortDocs : string -> list Parcel -> list Parcel.
Variable getFullYear : Date -> Z.
Variable getMonth : Date -> Z.
Variable Date_of_month : Z -> Z -> Date.

Hypothesis sortDocs_perm : forall s l, Permutation (sortDocs s l) l.

Local Abbreviation stats :=
  (getStats sys RegExp_compiles regex_test Date_parse sortDocs
            getFullYear getMonth Date_of_month).
Local Abbreviation key_of := (month_key getFullYear getMonth).
Local Abbreviation recent := (recent_keys getFullYear getMonth Date_of_month).
Local Abbreviation monthly := (monthly_of getFullYear getMonth Date_of_month).
Local Abbreviation created_in := (created_in getFullYear getMonth).

Lemma map_doc_populate (l : list Parcel) : map doc (map (populate sys) l) = l.
Proof. rewrite map_map. apply map_id. Qed.

(** The parcels [getStats] looks at: the first 100000 in the listing's
    order. *)
Lemma getStats_items (now : Date) (c : Collection) :
  exists items,
    items = firstn (Z.to_nat 100000) (sortDocs sort_createdAt_desc c) /\
    stats now c =
      (MkReply 200 (env_stats (length c)
                      (length (filter is_delivered items))
                      (length (filter is_inTransit items))
                      (monthly now items)), c).
Proof.
  eexists. split; [reflexivity|]. unfold getStats.
  destruct (listParcels_returns sys RegExp_compiles regex_test Date_parse sortDocs
              no_filters 1 100000 sort_createdAt_desc c) as (items & total & H);
    try (intros s E; discriminate E); [lia|].
  rewrite H.
  destruct (listParcels_sorted_matches sys RegExp_compiles regex_test Date_parse
              sortDocs _ _ _ _ _ _ _ _ H) as (_ & Hi & Ht).
  assert (Hall : filter (regex_matches sys regex_test Date_parse no_filters) c = c)
    by (apply filter_every; reflexivity).
  rewrite Hall in Hi, Ht. subst total.
  change (Z.to_nat ((1 - 1) * 100000)) with 0 in Hi. simpl skipn in Hi.
  unfold take_limit in Hi. change (100000 =? 0)%Z with false in Hi.
  change (Z.abs 100000) with 100000%Z in Hi. cbv iota in Hi.
  rewrite Hi. cbv zeta. rewrite map_doc_populate. reflexivity.
Qed.

Lemma delivered_or_inTransit (p : Parcel) : is_delivered p && is_inTransit p = false.
Proof.
  unfold is_delivered, is_inTransit.
  destruct (status p =? "delivered")%string; [|reflexivity].
  rewrite andb_false_r. reflexivity.
Qed.

Lemma lifecycle_is_inTransit (p : Parcel) :
  In (status p) lifecycle -> is_delivered p = false /\ is_inTransit p = true.
Proof.
  unfold is_delivered, is_inTransit, lifecycle. simpl.
  intros [H | [H | [H | [H | [H | []]]]]]; rewrite <- H; split; reflexivity.
Qed.

Lemma In_firstn {A} n (l : list A) x : In x (firstn n l) -> In x l.
Proof.
  intros H. rewrite <- (firstn_skipn n l). apply in_or_app. auto.
Qed.

(** X15.  [getStats] always answers 200 and stores nothing; its total is
    the number of stored parcels.  It counts as delivered only the parcels
    whose status is the lower-case string "delivered" and as in transit
    every other parcel with a non-empty status, so the two counts never add
    up to more than the total, and a collection whose statuses are the five
    lifecycle names has no delivered parcel at all: its parcels, those
    marked "Delivered" and "Cancelled" included, are all counted as in
    transit (up to the 100000 the listing is limited to). *)
Theorem stats_counts now c :
  exists delivered inTransit rows,
    stats now c = (MkReply 200 (env_stats (length c) delivered inTransit rows), c) /\
    delivered + inTransit <= length c /\
    (Forall (fun p => In (status p) lifecycle) c ->
     delivered = 0 /\ inTransit = Nat.min (Z.to_nat 100000) (length c)) /\
    (length c <= Z.to_nat 100000 ->
     delivered = length (filter is_delivered c) /\
     inTransit = length (filter is_inTransit c)).
Proof.
  destruct (getStats_items now c) as (items & Hi & H).
  assert (Hlen : length items = Nat.min (Z.to_nat 100000) (length c)).
  { rewrite Hi, length_firstn, (Permutation_length (sortDocs_perm _ _)). reflexivity. }
  assert (Hin : forall x, In x items -> In x c).
  { intros x Hx. rewrite Hi in Hx. apply In_firstn in Hx.
    exact (Permutation_in _ (sortDocs_perm _ _) Hx). }
  exists (length (filter is_delivered items)), (length (filter is_inTransit items)),
         (monthly now items).
  split; [exact H|]. split; [|split].
  - pose proof (filter_length_disjoint is_delivered is_inTransit items
                  delivered_or_inTransit). lia.
  - intros F. rewrite Forall_forall in F. split.
    + rewrite filter_none; [reflexivity|].
      intros x Hx. apply (lifecycle_is_inTransit x (F x (Hin x Hx))).
    + rewrite filter_every; [exact Hlen|].
      intros x Hx. apply (lifecycle_is_inTransit x (F x (Hin x Hx))).
  - intros Hle.
    assert (Hp : Permutation items c).
    { rewrite Hi, firstn_all2; [apply sortDocs_perm|].
      rewrite (Permutation_length (sortDocs_perm _ _)). exact Hle. }
    split; apply filter_length_perm, Hp.
Qed.

Lemma counts_fold (items : list Parcel) (o : Obj) :
  (forall k, obj_get k (fold_left (count_item getFullYear getMonth) items o) =
             option_map (fun n => n + created_in k items) (obj_get k o)) /\
  map fst (fold_left (count_item getFullYear getMonth) items o) = map fst o.
Proof.
  revert o. induction items as [|p items IH]; intros o; simpl.
  - split; [|reflexivity]. intros k. destruct (obj_get k o); simpl; [|reflexivity].
    unfold created_in. simpl. rewrite Nat.add_0_r. reflexivity.
  - destruct (IH (count_item getFullYear getMonth o p)) as [G K].
    unfold count_item in *.
    destruct (obj_get (key_of (createdAt p)) o) as [n|] eqn:E.
    + split.
      * intros k. rewrite G, obj_get_set. unfold created_in. simpl.
        destruct (key_of (createdAt p) =? k)%string eqn:Ek; simpl.
        -- apply String.eqb_eq in Ek. subst k. rewrite E. simpl. f_equal. lia.
        -- reflexivity.
      * rewrite K. apply (obj_keys_set_known _ _ n), E.
    + split; [|exact K].
      intros k. rewrite G. unfold created_in. simpl.
      destruct (key_of (createdAt p) =? k)%string eqn:Ek; simpl; [|reflexivity].
      apply String.eqb_eq in Ek. subst k. rewrite E. reflexivity.
Qed.

Lemma existsb_eqb_In (k : string) (l : list string) :
  existsb (String.eqb k) l = true <-> In k l.
Proof.
  rewrite existsb_exists. split.
  - intros (x & Hx & E). apply String.eqb_eq in E. now subst.
  - intros H. exists k. split; [exact H | apply String.eqb_refl].
Qed.

Lemma monthly_rows (now : Date) (items : list Parcel) :
  length (monthly now items) <= 6 /\
  Sorted (fun a b => String.leb a b = true) (map fst (monthly now items)) /\
  (forall k n, In (k, n) (monthly now items) <->
               In k (recent now) /\ n = created_in k items).
Proof.
  unfold monthly_of, init_months.
  destruct (zero_keys (recent now) []) as (G0 & K0 & L0 & N0).
  destruct (counts_fold items (fold_left (fun o k => obj_set k 0 o) (recent now) []))
    as (G & K).
  set (M := fold_left (count_item getFullYear getMonth) items
              (fold_left (fun o k => obj_set k 0 o) (recent now) [])) in *.
  split; [|split].
  - rewrite length_map, (Permutation_length (sort_keys_perm _)), K, length_map.
    unfold recent_keys in L0. simpl in L0. simpl. lia.
  - rewrite map_map. simpl. rewrite map_id. apply sort_keys_sorted.
  - intros k n. rewrite in_map_iff. split.
    + intros (x & E & Hx). injection E as -> <-.
      apply (Permutation_in _ (sort_keys_perm _)) in Hx. rewrite K in Hx.
      apply K0 in Hx. destruct Hx as [Hx | []]. split; [exact Hx|].
      rewrite G, G0. apply existsb_eqb_In in Hx. rewrite Hx. reflexivity.
    + intros [Hk ->]. exists k. split.
      * rewrite G, G0. apply existsb_eqb_In in Hk. rewrite Hk. reflexivity.
      * apply (Permutation_in _ (Permutation_sym (sort_keys_perm _))).
        rewrite K. apply K0. auto.
Qed.

(** X16.  The monthly series of [getStats] has at most six rows, one for
    each distinct key among the six months the loop sets up, in ascending
    order of the key; with no more than 100000 parcels stored, the count of
    a row is the number of stored parcels created in the month of its key,
    and parcels created in any other month are counted nowhere. *)
Theorem stats_monthly now c :
  length c <= Z.to_nat 100000 ->
  exists delivered inTransit rows,
    stats now c = (MkReply 200 (env_stats (length c) delivered inTransit rows), c) /\
    length rows <= 6 /\
    Sorted (fun a b => String.leb a b = true) (map fst rows) /\
    (forall k n, In (k, n) rows <-> In k (recent now) /\ n = created_in k c).
Proof.
  intros Hle. destruct (getStats_items now c) as (items & Hi & H).
  assert (Hp : Permutation items c).
  { rewrite Hi, firstn_all2; [apply sortDocs_perm|].
    rewrite (Permutation_length (sortDocs_perm _ _)). exact Hle. }
  destruct (monthly_rows now items) as (L & S & R).
  exists (length (filter is_delivered items)), (length (filter is_inTransit items)),
         (monthly now items).
  split; [exact H|]. split; [exact L|]. split; [exact S|].
  intros k n. rewrite R. unfold created_in.
  rewrite (filter_length_perm _ _ _ Hp). reflexivity.
Qed.

End MoreStats.

(** ** Properties of the origin check *)

Lemma strip_slash (s : string) :
  strip_trailing_slashes (s ++ "/")%string = strip_trailing_slashes s.
Proof.
  induction s as [|a s IH]; [reflexivity|].
  simpl. rewrite IH. reflexivity.
Qed.

Lemma endsWith_iff (h t : string) :
  endsWith h t = true <-> exists x, h = (x ++ t)%string.
Proof.
  split.
  - induction h as [|a h IH]; cbn [endsWith].
    + rewrite orb_false_r. intros E. apply String.eqb_eq in E. exists "". now subst.
    + intros E. apply orb_true_iff in E. destruct E as [E | E].
      * apply String.eqb_eq in E. exists "". now subst.
      * destruct (IH E) as (x & ->). exists (String a x). reflexivity.
  - intros (x & ->). induction x as [|a x IH].
    + change ("" ++ t)%string with t.
      destruct t; cbn [endsWith]; rewrite String.eqb_refl; reflexivity.
    + change (String a x ++ t)%string with (String a (x ++ t)%string).
      cbn [endsWith]. rewrite IH. apply orb_true_r.
Qed.

Lemma append_nonempty (o t : string) : o <> "" -> (o ++ t)%string <> "".
Proof. destruct o; [contradiction | discriminate]. Qed.

Section MoreOrigins.

Variable URL_hostname : string -> option string.

Local Abbreviation allowed := (isAllowedOrigin URL_hostname).

(** X17.  A request without origin, or with an empty one, is allowed; each
    listed origin is allowed; and a trailing slash never changes the
    verdict on a non-empty origin. *)
Theorem origin_trailing_slash :
  allowed None = true /\ allowed (Some "") = true /\
  (forall o, In o allowedOrigins -> allowed (Some o) = true) /\
  (forall o, o <> "" -> allowed (Some (o ++ "/")%string) = allowed (Some o)).
Proof.
  repeat split.
  - intros o [<- | [<- | [<- | []]]]; reflexivity.
  - intros o Hne. unfold isAllowedOrigin.
    assert (truthy (Some o) = Some o) as -> by (apply truthy_Some; auto).
    assert (truthy (Some (o ++ "/")%string) = Some (o ++ "/")%string) as ->
        by (apply truthy_Some; split; [reflexivity | now apply append_nonempty]).
    rewrite strip_slash. reflexivity.
Qed.

(** X18.  An origin is allowed exactly when it is absent or empty, or,
    once its trailing slashes are dropped, it is one of the listed origins
    or a URL whose host name ends with the letters "netlify.app", whatever
    comes before them, a dot or not. *)
Theorem origin_allowed_iff o :
  allowed o = true <->
  truthy o = None \/
  exists s, truthy o = Some s /\
            (In (strip_trailing_slashes s) allowedOrigins \/
             exists x, URL_hostname (strip_trailing_slashes s)
                       = Some (x ++ "netlify.app")%string).
Proof.
  unfold isAllowedOrigin. destruct (truthy o) as [s|]; [|intuition].
  split.
  - intros H. right. exists s. split; [reflexivity|].
    destruct (includes allowedOrigins (strip_trailing_slashes s)) eqn:E.
    + left. now apply includes_In.
    + right. destruct (URL_hostname (strip_trailing_slashes s)) as [h|]; [|discriminate].
      destruct (endsWith h "netlify.app") eqn:Eh; [|discriminate].
      apply endsWith_iff in Eh. destruct Eh as (x & ->). eauto.
  - intros [H | (s' & E & H)]; [discriminate|]. injection E as <-.
    destruct (includes allowedOrigins (strip_trailing_slashes s)) eqn:Ei; [reflexivity|].
    destruct H as [H | (x & ->)].
    + apply includes_In in H. congruence.
    + assert (endsWith (x ++ "netlify.app")%string "netlify.app" = true) as ->
          by (apply endsWith_iff; eauto).
      reflexivity.
Qed.

Lemma allowed_or_default (origin : option string) :
  allowed (Some (or_default origin "")) = allowed origin.
Proof.
  unfold isAllowedOrigin, or_default.
  destruct (truthy origin) as [s|] eqn:E; [|reflexivity].
  apply truthy_Some in E. destruct E as [_ E].
  assert (truthy (Some s) = Some s) as -> by (apply truthy_Some; auto).
  reflexivity.
Qed.

(** X19.  The preflight middleware answers a request 204 exactly when it
    is an OPTIONS request whose origin [isAllowedOrigin] accepts; the answer
    then allows credentials and echoes the origin as it was sent, trailing
    slashes included, or "*" when there was none.  Every other OPTIONS
    request is answered 403 with no header set, and a request that is not
    OPTIONS is handed on. *)
Theorem preflight_grants method origin :
  ((exists hs, preflight URL_hostname method origin = answer 204 hs None) <->
   method = "OPTIONS" /\ isAllowedOrigin URL_hostname origin = true) /\
  (forall hs, preflight URL_hostname method origin = answer 204 hs None ->
     header "Access-Control-Allow-Origin" hs
       = Some (match truthy origin with Some o => o | None => "*" end) /\
     header "Access-Control-Allow-Credentials" hs = Some "true") /\
  (forall st hs e, preflight URL_hostname method origin = answer st hs e ->
     st <> 204 -> st = 403 /\ hs = []) /\
  (preflight URL_hostname method origin = next <-> method <> "OPTIONS").
Proof.
  unfold preflight. rewrite allowed_or_default.
  destruct (method =? "OPTIONS")%string eqn:Em; simpl.
  - apply String.eqb_eq in Em. subst method.
    destruct (allowed origin) eqn:Ea; simpl; (split; [|split; [|split]]).
    + split; eauto.
    + intros hs H. injection H as <-. unfold header. simpl. split; [|reflexivity].
      f_equal. unfold or_default.
      destruct (truthy origin) as [s|] eqn:E; [|reflexivity].
      apply truthy_Some in E. destruct E as [_ E].
      assert (truthy (Some s) = Some s) as -> by (apply truthy_Some; auto).
      reflexivity.
    + intros st hs e H Hne. injection H as <- _ _. contradiction.
    + split; [discriminate | intros H; contradiction].
    + split; [intros (hs & H); discriminate | intros [_ H]; discriminate].
    + intros hs H. discriminate.
    + intros st hs e H _. injection H as <- <- _. auto.
    + split; [discriminate | intros H; contradiction].
  - apply String.eqb_neq in Em. split; [|split; [|split]].
    + split; [intros (hs & H); discriminate | intros [H _]; contradiction].
    + intros hs H. discriminate.
    + intros st hs e H. discriminate.
    + split; auto.
Qed.

(** With the sample reader of host names, a host that merely ends in the
    letters is let in. *)
Example origin_suffix_without_dot :
  isAllowedOrigin sample_hostname (Some "https://evilnetlify.app/") = true.
Proof. reflexivity. Qed.

End MoreOrigins.

(** ** How the operations compose *)

Section Composition.

Variable sys : Setting.

Local Abbreviation valid := (ObjectId_isValid sys).

(** X20.  Once a status update has put a parcel in Dispatched, InTransit or
    Delivered, a cancellation that follows is refused and the parcel stays
    exactly as the update left it, log included. *)
Theorem no_cancel_after_dispatching env env' id st user user' note c p :
  valid id = true ->
  stored (ObjectId_of sys id) c = Some p ->
  acting_user_ok valid user ->
  In st ["Dispatched"; "InTransit"; "Delivered"] ->
  exists p' c',
    updateParcelStatus sys env id st user note c = (Ok (Some (populate sys p')), c') /\
    cancelParcel sys env' id user' c' = (Throw IllegalTransitionError, c') /\
    stored (ObjectId_of sys id) c' = Some p' /\
    status p' = st /\
    length (statusLogs p') = S (length (statusLogs p)).
Proof.
  intros Hv Hs Hu Hin.
  destruct (updateParcelStatus_stored sys env id st user note c p Hv Hs Hu)
    as (c' & Hrun & Hst).
  eexists. exists c'. split; [exact Hrun|]. split; [|split; [exact Hst|]].
  - apply (cancelParcel_refused sys env' id user' c' _ Hv Hst).
    change (includes after_dispatch st = true). now apply includes_In.
  - split; [reflexivity|]. cbn [statusLogs push_statusLog set_status].
    rewrite length_app. simpl. lia.
Qed.

(** X21.  [createParcel] converts the sender's identifier, then the
    receiver's, before anything is stored: if the driver rejects either one
    the call throws the driver's error and the collection is unchanged, and
    the handler answers 400. *)
Theorem malformed_party_stops_creation env dto c :
  valid (dto_senderId dto) = false \/ valid (dto_receiverId dto) = false ->
  createParcel sys env dto c = (Throw BSONError, c) /\
  (forall req,
     truthy (req_user_id req) = Some (dto_senderId dto) ->
     truthy (body_receiverId req) = Some (dto_receiverId dto) ->
     ~ absent (body_origin req) -> ~ absent (body_destination req) ->
     createParcelHandler sys env req c =
     (MkResponse 400 (fail (LibraryText BSONError)), c)).
Proof.
  intros H.
  assert (E : forall o d w pr n,
             createParcel sys env
               (MkDTO (dto_senderId dto) (dto_receiverId dto) o d w pr n) c
             = (Throw BSONError, c)).
  { intros. unfold createParcel, bind, lift, ObjectId_new. simpl.
    destruct (valid (dto_senderId dto)); [|reflexivity].
    destruct H as [H | H]; [discriminate|]. rewrite H. reflexivity. }
  split.
  - destruct dto. apply E.
  - intros req Hu Hr Ho Hd. unfold createParcelHandler, absent in *.
    rewrite Hu, Hr.
    destruct (truthy (body_origin req)) as [o|]; [|contradiction].
    destruct (truthy (body_destination req)) as [d|]; [|contradiction].
    rewrite E. reflexivity.
Qed.

(** X22.  A parcel created through the handler is always sent by the
    authenticated user: the sender is the identifier the driver reads from
    the user's, the first log entry is signed by it, the receiver is the
    identifier read from the body's, and origin and destination are those of
    the body. *)
Theorem created_parcel_is_the_users env req c uid p :
  truthy (req_user_id req) = Some uid ->
  fst (createParcelHandler sys env req c) = MkResponse 201 (success p) ->
  senderId p = ObjectId_of sys uid /\
  (exists r, truthy (body_receiverId req) = Some r /\
             receiverId p = ObjectId_of sys r) /\
  truthy (body_origin req) = Some (origin p) /\
  truthy (body_destination req) = Some (destination p) /\
  status p = "Created" /\
  map log_updatedBy (statusLogs p) = [Some (ObjectId_of sys uid)] /\
  snd (createParcelHandler sys env req c) = c ++ [p].
Proof.
  intros Hu. unfold createParcelHandler. rewrite Hu.
  destruct (truthy (body_receiverId req)) as [r|]; [|discriminate].
  destruct (truthy (body_origin req)) as [o|]; [|discriminate].
  destruct (truthy (body_destination req)) as [d|]; [|discriminate].
  destruct (createParcel sys env _ c) as [[q|e] c'] eqn:E; simpl; [|discriminate].
  intros H. injection H as <-.
  destruct (createParcel_Ok_inv sys env _ c q c' E) as [-> Eq].
  rewrite Eq. simpl. repeat split. exists r. split; reflexivity.
Qed.

End Composition.

(** ** The further properties at concrete inputs *)

Lemma create_then_find_witness :
  exists d,
    getParcelByTrackingId sys0 (trackingId created0) [created0]
      = (Ok (Some d), [created0]) /\
    doc d = created0 /\
    origin (doc d) = dto_origin dto0 /\ destination (doc d) = dto_destination dto0 /\
    senderId (doc d) = ObjectId_of sys0 (dto_senderId dto0) /\
    receiverId (doc d) = ObjectId_of sys0 (dto_receiverId dto0) /\
    sender_user d = User_findById sys0 (ObjectId_of sys0 (dto_senderId dto0)) /\
    receiver_user d = User_findById sys0 (ObjectId_of sys0 (dto_receiverId dto0)) /\
    (hex24 (toHexString (_id created0)) = true ->
     ObjectId_hex sys0 (toHexString (_id created0)) = toHexString (_id created0) ->
     stored (_id created0) [] = None ->
     getParcelById sys0 (toHexString (_id created0)) [created0]
       = (Ok (Some d), [created0])).
Proof.
  apply (create_then_find sys0 env0 dto0 [] created0 [created0]); reflexivity.
Defined.

(** The lookups return the document with the two users in the place of the
    references, and null where no user has the identifier; an upper-case
    spelling of the identifier finds the same parcel. *)
Example lookups_populate :
  getParcelByTrackingId sys0 "TRK-0001" [created0] = (Ok (Some populated0), [created0]) /\
  getParcelById sys0 id_a [created0] = (Ok (Some populated0), [created0]) /\
  getParcelById sys0 id_A [created0] = (Ok (Some populated0), [created0]) /\
  getParcelByTrackingId sys0 "TRK-0005" [parcel_e]
    = (Ok (Some (MkPopulated parcel_e None None)), [parcel_e]).
Proof. repeat split. Qed.

Lemma identity_is_immutable_witness :
  exists p', stored (oid id_a) (run_all sys0 ops0 [created0]) = Some p' /\
             same_identity created0 p'.
Proof.
  apply (identity_is_immutable sys0 ops0 [created0] (oid id_a) created0). reflexivity.
Defined.


Lemma cancel_handler_answers_witness :
  cancelParcelHandler sys0 env1 req_cancel [dispatched0]
    = (MkResponse 400 (fail (Text "Cannot cancel parcel after dispatch")), [dispatched0]) /\
  cancelParcelHandler sys0 env1 req_cancel []
    = (MkResponse 404 (fail (Text "Parcel not found")), []) /\
  cancelParcelHandler sys0 env1 req_cancel_upper [dispatched0]
    = (MkResponse 400 (fail (Text "Cannot cancel parcel after dispatch")), [dispatched0]).
Proof.
  split; [|split].
  - apply (cancel_handler_answers sys0 env1 req_cancel [dispatched0] id_s id_a
             eq_refl eq_refl eq_refl) with (p := dispatched0);
      [reflexivity | reflexivity | simpl; auto].
  - apply (cancel_handler_answers sys0 env1 req_cancel [] id_s id_a
             eq_refl eq_refl eq_refl).
    right. reflexivity.
  - apply (cancel_handler_answers sys0 env1 req_cancel_upper [dispatched0] id_s id_A
             eq_refl eq_refl eq_refl) with (p := dispatched0);
      [reflexivity | reflexivity | simpl; auto].
Defined.

(** An identifier spelled in upper case reaches the stored parcel: the
    handlers cancel and update it, they do not answer 404. *)
Example upper_case_identifier_is_found :
  code (fst (cancelParcelHandler sys0 env1 req_cancel_upper [created0])) = 200 /\
  code (fst (updateStatusHandler sys0 env1 req_update_upper [created0])) = 200 /\
  option_map status
    (stored (oid id_a) (snd (updateStatusHandler sys0 env1 req_update_upper [created0])))
    = Some "Dispatched" /\
  option_map status
    (stored (oid id_a) (snd (cancelParcelHandler sys0 env1 req_cancel_upper [created0])))
    = Some "Cancelled".
Proof. repeat split. Qed.

(** A sender filter spelled in upper case selects the sender's parcels. *)
Example upper_case_filter_matches :
  list0 filters_sender_upper 1%Z 10%Z "-createdAt" [created0; parcel_d]
    = (Ok ([populated0], 1), [created0; parcel_d]).
Proof. reflexivity. Qed.

Lemma pages_are_slices_witness :
  [populated0] = map (populate sys0)
                   (firstn (Z.to_nat 2)
                      (skipn (Z.to_nat (2 - 1) * Z.to_nat 2)
                         (newest_first "-createdAt"
                            (filter (regex_matches sys0 dot_test sample_dates no_filters)
                                    three_parcels)))) /\
  length [populated0] <= Z.to_nat 2 /\
  length [populated0] = Nat.min (Z.to_nat 2) (3 - Z.to_nat (2 - 1) * Z.to_nat 2) /\
  (3 <= Z.to_nat (2 - 1) * Z.to_nat 2 -> [populated0] = []).
Proof.
  apply (pages_are_slices sys0 dot_compiles dot_test sample_dates newest_first
           newest_first_perm no_filters 2%Z 2%Z "-createdAt" three_parcels
           [populated0] 3 three_parcels); [reflexivity | lia | lia].
Defined.

Lemma bad_pattern_fails_listing_witness :
  list0 filters_paren 1%Z 10%Z "-createdAt" three_parcels
    = (Throw SyntaxError, three_parcels).
Proof.
  apply (bad_pattern_fails_listing sys0 dot_compiles dot_test sample_dates newest_first
           sample_paging filters_paren 1%Z 10%Z "-createdAt" three_parcels "(");
    reflexivity.
Defined.

Lemma empty_filter_values_are_ignored_witness :
  list0 filters_blank 1%Z 10%Z "-createdAt" three_parcels
  = list0 no_filters 1%Z 10%Z "-createdAt" three_parcels.
Proof.
  apply (empty_filter_values_are_ignored sys0 dot_compiles dot_test sample_dates
           newest_first filters_blank no_filters); reflexivity.
Defined.

Lemma roles_see_their_own_parcels_witness :
  snd (handler0 (Some sender_s) query_all four_parcels) = four_parcels /\
  (fst (handler0 (Some sender_s) query_all four_parcels)
     = MkReply 500 (env_error "Server error") \/
   exists items total page limit,
     fst (handler0 (Some sender_s) query_all four_parcels)
       = MkReply 200 (env_page items total page limit) /\
     (auth_role sender_s = "sender" ->
      forall d, In d items ->
        In (doc d) four_parcels /\
        senderId (doc d) = ObjectId_of sys0 (String_of_id sender_s)) /\
     (auth_role sender_s = "receiver" ->
      forall d, In d items ->
        In (doc d) four_parcels /\
        receiverId (doc d) = ObjectId_of sys0 (String_of_id sender_s))).
Proof.
  apply (roles_see_their_own_parcels sys0 dot_compiles dot_test sample_dates
           newest_first sample_paging newest_first_perm sender_s query_all four_parcels).
  discriminate.
Defined.

Lemma stats_counts_witness :
  exists delivered inTransit rows,
    stats0 5000%Z three_parcels
      = (MkReply 200 (env_stats (length three_parcels) delivered inTransit rows),
         three_parcels) /\
    delivered + inTransit <= length three_parcels /\
    (Forall (fun p => In (status p) lifecycle) three_parcels ->
     delivered = 0 /\ inTransit = Nat.min (Z.to_nat 100000) (length three_parcels)) /\
    (length three_parcels <= Z.to_nat 100000 ->
     delivered = length (filter is_delivered three_parcels) /\
     inTransit = length (filter is_inTransit three_parcels)).
Proof.
  exact (stats_counts sys0 dot_compiles dot_test sample_dates newest_first
           sample_year sample_month sample_first newest_first_perm
           5000%Z three_parcels).
Defined.

Lemma stats_monthly_witness :
  exists delivered inTransit rows,
    stats0 5000%Z three_parcels
      = (MkReply 200 (env_stats (length three_parcels) delivered inTransit rows),
         three_parcels) /\
    length rows <= 6 /\
    Sorted (fun a b => String.leb a b = true) (map fst rows) /\
    (forall k n, In (k, n) rows <->
       In k (recent_keys sample_year sample_month sample_first 5000%Z) /\
       n = created_in sample_year sample_month k three_parcels).
Proof.
  apply (stats_monthly sys0 dot_compiles dot_test sample_dates newest_first
           sample_year sample_month sample_first newest_first_perm
           5000%Z three_parcels).
  unfold three_parcels. cbn [length]. lia.
Defined.

Lemma no_cancel_after_dispatching_witness :
  exists p' c',
    updateParcelStatus sys0 env1 id_a "InTransit" (Some id_s) None [created0]
      = (Ok (Some (populate sys0 p')), c') /\
    cancelParcel sys0 env1 id_a None c' = (Throw IllegalTransitionError, c') /\
    stored (ObjectId_of sys0 id_a) c' = Some p' /\
    status p' = "InTransit" /\
    length (statusLogs p') = S (length (statusLogs created0)).
Proof.
  apply (no_cancel_after_dispatching sys0 env1 env1 id_a "InTransit" (Some id_s) None
           None [created0] created0);
    [reflexivity | reflexivity | exact acting_user_hex | simpl; auto].
Defined.

Lemma malformed_party_stops_creation_witness :
  createParcel sys0 env0 (MkDTO "S1" "R1" "Lagos" "Abuja" None None None) []
    = (Throw BSONError, []).
Proof.
  apply (malformed_party_stops_creation sys0 env0
           (MkDTO "S1" "R1" "Lagos" "Abuja" None None None) []).
  left. reflexivity.
Defined.

Lemma created_parcel_is_the_users_witness :
  senderId created0 = ObjectId_of sys0 id_s /\
  (exists r, truthy (body_receiverId req_create) = Some r /\
             receiverId created0 = ObjectId_of sys0 r) /\
  truthy (body_origin req_create) = Some (origin created0) /\
  truthy (body_destination req_create) = Some (destination created0) /\
  status created0 = "Created" /\
  map log_updatedBy (statusLogs created0) = [Some (ObjectId_of sys0 id_s)] /\
  snd (createParcelHandler sys0 env0 req_create []) = [] ++ [created0].
Proof.
  apply (created_parcel_is_the_users sys0 env0 req_create [] id_s created0);
    reflexivity.
Defined.
